(** * Exa MCP client: a shallow embedding and its specification

    This development embeds the client of [exa-mcp-client.ts]
    ([parseSSEResponse], [callExa], [extractTextContent]) and proves
    the properties its specification states about it.  It then embeds
    the tool functions of the client and the plugin of [index.ts]
    ([wrapExecute], [TOOLS], the default export) and proves how they
    compose with the client.

    JavaScript strings are modelled by [string] (a sequence of
    characters), arrays by [list], numbers that hold integers by [Z],
    and a completion that either returns or throws by [completion]. *)

From Stdlib Require Import String Ascii List ZArith Lia Bool DecimalString Sorted.
Import ListNotations.

Local Open Scope string_scope.
Local Open Scope list_scope.

(** String concatenation is written [+++] to keep [++] for lists. *)
Infix "+++" := String.append (right associativity, at level 60).

(* ===================================================================== *)
(** * The JavaScript primitives the client uses *)
(* ===================================================================== *)

Module JS.

(** ** Thrown values

    The client throws [new Error(msg)]; [JSON.parse] throws a
    [SyntaxError]; [fetch] rejects with a [TypeError] on a network
    failure and with a [DOMException] named ["AbortError"] when its
    signal aborts. *)
Inductive exn : Type :=
| Error (message : string)
| SyntaxError (message : string)
| TypeError (message : string)
| DOMException (message : string) (name : string).

Definition exn_message (e : exn) : string :=
  match e with
  | Error m | SyntaxError m | TypeError m | DOMException m _ => m
  end.

(** A call either returns a value or throws. *)
Inductive completion (A : Type) : Type :=
| Return (a : A)
| Throw (e : exn).
Arguments Return {A} a.
Arguments Throw {A} e.

Definition returns {A} (c : completion A) : bool :=
  match c with Return _ => true | Throw _ => false end.

(** ** Strings *)

(** [s.startsWith(p)] *)
Fixpoint startsWith (s p : string) {struct p} : bool :=
  match p with
  | EmptyString => true
  | String c p' =>
      match s with
      | EmptyString => false
      | String d s' => Ascii.eqb d c && startsWith s' p'
      end
  end.

(** [s.substring(start)]: the characters from index [start] to the end
    (the empty string when [start] is beyond the end). *)
Fixpoint substring (s : string) (start : nat) {struct start} : string :=
  match start with
  | O => s
  | S n => match s with
           | EmptyString => EmptyString
           | String _ s' => substring s' n
           end
  end.

(** [s.includes(sub)] *)
Fixpoint includes (s sub : string) : bool :=
  startsWith s sub ||
  match s with
  | EmptyString => false
  | String _ s' => includes s' sub
  end.

(** [s.split(sep)] for a separator of one character.  The result is
    never empty: a string without the separator is its only piece, and
    a trailing separator leaves a last empty piece. *)
Fixpoint split (s : string) (sep : ascii) : list string :=
  match s with
  | EmptyString => [EmptyString]
  | String c s' =>
      if Ascii.eqb c sep then EmptyString :: split s' sep
      else match split s' sep with
           | piece :: pieces => String c piece :: pieces
           | [] => [String c EmptyString]
           end
  end.

(** ** Arrays *)

(** [a.join(sep)]: the accumulator [R] of the ECMAScript algorithm
    starts with the first element and receives the separator and the
    next element at every further index. *)
Fixpoint join_loop (R : string) (rest : list string) (sep : string) : string :=
  match rest with
  | [] => R
  | x :: rest' => join_loop (R +++ sep +++ x) rest' sep
  end.

Definition join (a : list string) (sep : string) : string :=
  match a with
  | [] => EmptyString
  | x :: rest => join_loop x rest sep
  end.

(** [a.push(x)] appends at the end. *)
Definition push {A} (a : list A) (x : A) : list A := a ++ [x].

(** ** Numbers *)

(** The string a template literal gives for a number holding the integer
    [n]: its decimal digits, with a leading minus sign when negative.
    This is what Number::toString gives for a safe integer, one below
    2^53 in magnitude.  Above, a number prints the shortest digits that
    read back as the same double, then zeros, and from 10^21 on it
    prints in exponent form: the rendering is exact for safe integers
    only. *)
Definition Number_toString (n : Z) : string :=
  NilZero.string_of_int (Z.to_int n).

(** [++n] on a number holding a non-negative integer.  Numbers are IEEE
    doubles: up to 2^53 the successor is exact; 2^53 + 1 is not
    representable and rounds back to 2^53. *)
Definition increment (n : Z) : Z :=
  if (n <? 2 ^ 53)%Z then (n + 1)%Z else n.

End JS.

(* ===================================================================== *)
(** * JSON documents *)
(* ===================================================================== *)

(** The values [JSON.parse] produces and [JSON.stringify] consumes.  A
    number is kept exactly, as [mantissa * 10 ^ exponent]; an object
    keeps its members in the order of the text. *)

Module Json.
Import JS.

#[warnings="-register-all"] Inductive json : Type :=
| JNull
| JBool (b : bool)
| JNumber (mantissa exponent : Z)
| JString (s : string)
| JArray (elements : list json)
| JObject (members : list (string * json)).

(** ** A reference parser for the JSON grammar (ECMA-404) *)

Definition is_ws (c : ascii) : bool :=
  Ascii.eqb c " " || Ascii.eqb c "009" || Ascii.eqb c "010" || Ascii.eqb c "013".

Fixpoint skip_ws (s : string) : string :=
  match s with
  | String c s' => if is_ws c then skip_ws s' else s
  | EmptyString => s
  end.

Definition digit_of (c : ascii) : option Z :=
  let n := nat_of_ascii c in
  if (48 <=? n)%nat && (n <=? 57)%nat then Some (Z.of_nat (n - 48)) else None.

Definition hex_of (c : ascii) : option nat :=
  let n := nat_of_ascii c in
  if (48 <=? n)%nat && (n <=? 57)%nat then Some (n - 48)%nat
  else if (65 <=? n)%nat && (n <=? 70)%nat then Some (n - 55)%nat
  else if (97 <=? n)%nat && (n <=? 102)%nat then Some (n - 87)%nat
  else None.

(** A maximal run of digits: its value when read after [acc], how many
    digits were read, and the rest of the text. *)
Fixpoint digits (s : string) (acc : Z) (count : nat) : Z * nat * string :=
  match s with
  | String c s' =>
      match digit_of c with
      | Some d => digits s' (acc * 10 + d)%Z (S count)
      | None => (acc, count, s)
      end
  | EmptyString => (acc, count, s)
  end.

(** The integer part: a single [0], or a run of digits that does not
    start with [0]. *)
Definition int_part (s : string) : option (Z * string) :=
  match s with
  | String "0" s' => Some (0%Z, s')
  | _ => match digits s 0%Z 0 with
         | (_, O, _) => None
         | (v, _, rest) => Some (v, rest)
         end
  end.

(** The optional fraction: the mantissa extended by its digits and the
    number of those digits. *)
Definition frac_part (m : Z) (s : string) : option (Z * nat * string) :=
  match s with
  | String "." s' =>
      match digits s' m 0 with
      | (_, O, _) => None
      | r => Some r
      end
  | _ => Some (m, O, s)
  end.

Definition exp_part (s : string) : option (Z * string) :=
  let unsigned (neg : bool) (s' : string) :=
    match digits s' 0%Z 0 with
    | (_, O, _) => None
    | (v, _, rest) => Some (if neg then (- v)%Z else v, rest)
    end in
  match s with
  | String c s' =>
      if Ascii.eqb c "e" || Ascii.eqb c "E" then
        match s' with
        | String "+" s'' => unsigned false s''
        | String "-" s'' => unsigned true s''
        | _ => unsigned false s'
        end
      else Some (0%Z, s)
  | EmptyString => Some (0%Z, s)
  end.

Definition parse_number (s : string) : option (json * string) :=
  let '(neg, s1) := match s with
                    | String "-" s' => (true, s')
                    | _ => (false, s)
                    end in
  match int_part s1 with
  | None => None
  | Some (i, s2) =>
      match frac_part i s2 with
      | None => None
      | Some (m, fd, s3) =>
          match exp_part s3 with
          | None => None
          | Some (e, s4) =>
              Some (JNumber (if neg then (- m)%Z else m) (e - Z.of_nat fd), s4)
          end
      end
  end.

(** The bytes of the UTF-8 form of a code unit below 2^16. *)
Definition utf8 (n : nat) : string :=
  if (n <? 128)%nat then String (ascii_of_nat n) EmptyString
  else if (n <? 2048)%nat then
    String (ascii_of_nat (192 + n / 64))
      (String (ascii_of_nat (128 + n mod 64)) EmptyString)
  else
    String (ascii_of_nat (224 + n / 4096))
      (String (ascii_of_nat (128 + (n / 64) mod 64))
         (String (ascii_of_nat (128 + n mod 64)) EmptyString)).

(** The characters of a string literal after its opening quote, up to
    the closing one. *)
Fixpoint parse_chars (fuel : nat) (s : string) : option (string * string) :=
  match fuel with
  | O => None
  | S fuel' =>
      match s with
      | EmptyString => None
      | String "034" rest => Some (EmptyString, rest)
      | String "\" (String e rest) =>
          let continue (decoded rest' : string) :=
            match parse_chars fuel' rest' with
            | Some (tail, rest'') => Some (decoded +++ tail, rest'')
            | None => None
            end in
          let one (c : ascii) := continue (String c EmptyString) rest in
          if Ascii.eqb e "034" then one "034"%char
          else if Ascii.eqb e "\" then one "\"%char
          else if Ascii.eqb e "/" then one "/"%char
          else if Ascii.eqb e "b" then one "008"%char
          else if Ascii.eqb e "f" then one "012"%char
          else if Ascii.eqb e "n" then one "010"%char
          else if Ascii.eqb e "r" then one "013"%char
          else if Ascii.eqb e "t" then one "009"%char
          else if Ascii.eqb e "u" then
            match rest with
            | String h1 (String h2 (String h3 (String h4 rest'))) =>
                match hex_of h1, hex_of h2, hex_of h3, hex_of h4 with
                | Some a, Some b, Some c, Some d =>
                    continue (utf8 (((a * 16 + b) * 16 + c) * 16 + d)) rest'
                | _, _, _, _ => None
                end
            | _ => None
            end
          else None
      | String c rest =>
          if (nat_of_ascii c <? 32)%nat then None
          else match parse_chars fuel' rest with
               | Some (tail, rest') => Some (String c tail, rest')
               | None => None
               end
      end
  end.

Definition parse_string (s : string) : option (string * string) :=
  parse_chars (S (String.length s)) s.

(** A value, the elements of an array after its opening bracket, and the
    members of an object after its opening brace. *)
Fixpoint parse_value (fuel : nat) (s : string) : option (json * string) :=
  match fuel with
  | O => None
  | S fuel' =>
      match skip_ws s with
      | String "{" rest =>
          match skip_ws rest with
          | String "}" rest' => Some (JObject [], rest')
          | rest' =>
              match parse_members fuel' rest' with
              | Some (ms, rest'') => Some (JObject ms, rest'')
              | None => None
              end
          end
      | String "[" rest =>
          match skip_ws rest with
          | String "]" rest' => Some (JArray [], rest')
          | rest' =>
              match parse_elements fuel' rest' with
              | Some (vs, rest'') => Some (JArray vs, rest'')
              | None => None
              end
          end
      | String "034" rest =>
          match parse_string rest with
          | Some (str, rest') => Some (JString str, rest')
          | None => None
          end
      | s' =>
          if startsWith s' "true" then Some (JBool true, substring s' 4)
          else if startsWith s' "false" then Some (JBool false, substring s' 5)
          else if startsWith s' "null" then Some (JNull, substring s' 4)
          else parse_number s'
      end
  end
with parse_elements (fuel : nat) (s : string) : option (list json * string) :=
  match fuel with
  | O => None
  | S fuel' =>
      match parse_value fuel' s with
      | None => None
      | Some (v, rest) =>
          match skip_ws rest with
          | String "]" rest' => Some ([v], rest')
          | String "," rest' =>
              match parse_elements fuel' rest' with
              | Some (vs, rest'') => Some (v :: vs, rest'')
              | None => None
              end
          | _ => None
          end
      end
  end
with parse_members (fuel : nat) (s : string)
  : option (list (string * json) * string) :=
  match fuel with
  | O => None
  | S fuel' =>
      match skip_ws s with
      | String "034" rest =>
          match parse_string rest with
          | None => None
          | Some (key, rest1) =>
              match skip_ws rest1 with
              | String ":" rest2 =>
                  match parse_value fuel' rest2 with
                  | None => None
                  | Some (v, rest3) =>
                      match skip_ws rest3 with
                      | String "}" rest4 => Some ([(key, v)], rest4)
                      | String "," rest4 =>
                          match parse_members fuel' rest4 with
                          | Some (ms, rest5) => Some ((key, v) :: ms, rest5)
                          | None => None
                          end
                      | _ => None
                      end
                  end
              | _ => None
              end
          end
      | _ => None
      end
  end.

(** [JSON.parse(text)]: one value, surrounded by white space only.  Each
    level of the recursion consumes a character, so twice the length of
    the text is fuel enough. *)
Definition parse (text : string) : completion json :=
  match parse_value (2 * String.length text + 2) text with
  | Some (v, rest) =>
      match skip_ws rest with
      | EmptyString => Return v
      | _ => Throw (SyntaxError "Unexpected non-whitespace character after JSON")
      end
  | None => Throw (SyntaxError "Unexpected token in JSON")
  end.

(** ** A reference printer *)

Definition hex_digit (n : nat) : ascii :=
  if (n <? 10)%nat then ascii_of_nat (48 + n) else ascii_of_nat (87 + n).

(** The characters of a string literal: the quote, the backslash and the
    control characters are escaped. *)
Fixpoint escape (s : string) : string :=
  match s with
  | EmptyString => EmptyString
  | String c s' =>
      let n := nat_of_ascii c in
      (if Ascii.eqb c "034" then String "\" (String "034" EmptyString)
       else if Ascii.eqb c "\" then "\\"
       else if Ascii.eqb c "010" then "\n"
       else if Ascii.eqb c "013" then "\r"
       else if Ascii.eqb c "009" then "\t"
       else if Ascii.eqb c "008" then "\b"
       else if Ascii.eqb c "012" then "\f"
       else if (n <? 32)%nat then
         "\u00" +++ String (hex_digit (n / 16))
                     (String (hex_digit (n mod 16)) EmptyString)
       else String c EmptyString) +++ escape s'
  end.

Definition quote (s : string) : string :=
  String "034" (escape s +++ String "034" EmptyString).

(** [JSON.stringify(v)] without indentation. *)
Fixpoint stringify (v : json) : string :=
  match v with
  | JNull => "null"
  | JBool true => "true"
  | JBool false => "false"
  | JNumber m e =>
      if (0 <=? e)%Z then Number_toString (m * 10 ^ e)
      else Number_toString m +++ "e" +++ Number_toString e
  | JString s => quote s
  | JArray vs => "[" +++ join (map stringify vs) "," +++ "]"
  | JObject ms =>
      "{" +++ join (map (fun kv => quote (fst kv) +++ ":" +++ stringify (snd kv)) ms) ","
          +++ "}"
  end.

End Json.

(* ===================================================================== *)
(** * exa-mcp-client.ts *)
(* ===================================================================== *)

Module ExaMcpClient.
Import JS Json.

Definition EXA_BASE_URL : string := "https://mcp.exa.ai/mcp".

Definition EXA_TOOLS : string :=
  join [ "web_search_exa";
         "web_search_advanced_exa";
         "get_code_context_exa";
         "company_research_exa";
         "people_search_exa" ] ",".

Definition EXA_URL : string := EXA_BASE_URL +++ "?tools=" +++ EXA_TOOLS.

Definition REQUEST_TIMEOUT_MS : Z := 30000.

(** ** The envelopes *)

(** [interface ExaRequest] *)
Record ExaRequest : Type := {
  jsonrpc : string;
  id : Z;
  method : string;
  params : option (list (string * json))
}.

(** An item of [result.content]. *)
Record ContentItem : Type := {
  type : string;
  text : string
}.

(** An item of [result.tools]. *)
Record RemoteTool : Type := {
  name : string;
  description : string;
  inputSchema : json
}.

(** The [result] of [interface ExaSuccessResponse]; both fields are
    optional. *)
Record ExaResult : Type := {
  content : option (list ContentItem);
  tools : option (list RemoteTool)
}.

(** The [error] of [interface ExaErrorResponse]. *)
Record ExaError : Type := {
  code : Z;
  message : string
}.

(** [type ExaResponse = ExaSuccessResponse | ExaErrorResponse].  The
    client tells the two apart by the presence of the [error] key and
    reads [result] through [?.], so the decoded object is kept with
    both keys optional. *)
Record ExaResponse : Type := {
  response_jsonrpc : string;
  response_id : Z;
  error : option ExaError;
  result : option ExaResult
}.

(** The object [JSON.stringify] sees for a request: a key whose value is
    [undefined] is left out. *)
Definition toJSON (request : ExaRequest) : json :=
  JObject ([ ("jsonrpc", JString (jsonrpc request));
             ("id", JNumber (id request) 0);
             ("method", JString (method request)) ]
           ++ match params request with
              | Some p => [ ("params", JObject p) ]
              | None => []
              end).

(** ** What [fetch] is given and what it gives back *)

Record RequestInit : Type := {
  init_method : string;
  headers : list (string * string);
  body : string
}.

(** A [Response]; [response_text] is the outcome of awaiting
    [response.text()]. *)
Record Response : Type := {
  ok : bool;
  status : Z;
  statusText : string;
  response_text : completion string
}.

(** [typeof fetch], awaited: the promise resolves to a response or
    rejects.  The abort signal of the request is not an argument: when
    the timer of [REQUEST_TIMEOUT_MS] fires first, the exchange rejects
    with the [DOMException] named ["AbortError"]. *)
Definition Fetch : Type := string -> RequestInit -> completion Response.

Definition AbortError (m : string) : exn := DOMException m "AbortError".

(** ** Module state: [let requestIdCounter = 0] *)

Record State : Type := {
  requestIdCounter : Z
}.

Definition initial : State := {| requestIdCounter := 0 |}.

Section Client.

(** The global [JSON] object. *)
Variable JSON_parse : string -> completion json.
Variable JSON_stringify : json -> string.

(** ** [parseSSEResponse] *)

(** The body of the first loop: [if (line.startsWith("data: "))
    dataLines.push(line.substring(6))]. *)
Definition collect (dataLines : list string) (line : string) : list string :=
  if startsWith line "data: " then push dataLines (substring line 6)
  else dataLines.

(** [dataLines] once the loop over [text.split("\n")] is over. *)
Definition dataLines (text : string) : list string :=
  fold_left collect (split text "010") [].

(** The second loop, entered with [i + 1 = n]: it parses [dataLines[i]]
    and returns it when that succeeds, and goes on with [i - 1]
    otherwise.  An index outside the array reads [undefined], which
    [JSON.parse] rejects. *)
Fixpoint scan (dataLines : list string) (n : nat) : option string :=
  match n with
  | O => None
  | S i =>
      match nth_error dataLines i with
      | Some line =>
          match JSON_parse line with
          | Return _ => Some line
          | Throw _ => scan dataLines i
          end
      | None => scan dataLines i
      end
  end.

Definition parseSSEResponse (text : string) : completion string :=
  let dataLines := dataLines text in
  if (List.length dataLines =? 0)%nat then
    Throw (Error "No data: field found in SSE response")
  else
    match scan dataLines (List.length dataLines) with
    | Some line => Return line
    | None => Return (join dataLines EmptyString)
    end.

(** ** [callExa] *)

(** [const requestId = ++requestIdCounter] and the request built from
    it.  This is the only write to the module state, and it runs before
    the first [await]: calls that overlap in time still take their ids
    one after the other, in the order they were made. *)
Definition nextRequest (method : string) (params : option (list (string * json)))
    (s : State) : State * ExaRequest :=
  let requestId := increment (requestIdCounter s) in
  ({| requestIdCounter := requestId |},
   {| jsonrpc := "2.0"; id := requestId; method := method; params := params |}).

(** The options [fetchFn] is called with. *)
Definition requestInit (request : ExaRequest) : RequestInit :=
  {| init_method := "POST";
     headers := [ ("Content-Type", "application/json");
                  ("Accept", "application/json, text/event-stream") ];
     body := JSON_stringify (toJSON request) |}.

(** The [try] block. *)
Definition exchange (fetchFn : Fetch) (request : ExaRequest) : completion json :=
  match fetchFn EXA_URL (requestInit request) with
  | Throw e => Throw e
  | Return response =>
      if negb (ok response) then
        Throw (Error ("HTTP error: " +++ Number_toString (status response)
                        +++ " " +++ statusText response))
      else
        match response_text response with
        | Throw e => Throw e
        | Return text =>
            match JSON_parse text with
            | Return v => Return v
            | Throw _ =>
                match parseSSEResponse text with
                | Throw e => Throw e
                | Return jsonData => JSON_parse jsonData
                end
            end
        end
  end.

(** The [catch] clause: [error instanceof DOMException && error.name ===
    "AbortError"] becomes the time-out error, anything else is thrown
    again. *)
Definition rethrow (error : exn) : exn :=
  match error with
  | DOMException _ name =>
      if String.eqb name "AbortError" then
        Error ("Exa request timed out after "
                 +++ Number_toString (REQUEST_TIMEOUT_MS / 1000) +++ "s")
      else error
  | _ => error
  end.

(** [callExa] returns the decoded document; TypeScript only asserts
    that it is an [ExaResponse]. *)
Definition callExa (method : string) (params : option (list (string * json)))
    (fetchFn : Fetch) (s : State) : State * completion json :=
  let '(s', request) := nextRequest method params s in
  (s', match exchange fetchFn request with
       | Return v => Return v
       | Throw error => Throw (rethrow error)
       end).

End Client.

(** ** [extractTextContent] *)

Definition extractTextContent (response : ExaResponse) : completion string :=
  match error response with
  | Some err =>
      Throw (Error ("Exa API error: " +++ Number_toString (code err)
                      +++ " - " +++ message err))
  | None =>
      match result response with
      | None => Throw (Error "No content in response")
      | Some result =>
          match content result with
          | None => Throw (Error "No content in response")
          | Some content =>
              Return (join (map text
                              (filter (fun item => String.eqb (type item) "text")
                                 content))
                        (String "010" (String "010" EmptyString)))
          end
      end
  end.

End ExaMcpClient.

(* ===================================================================== *)
(** * The vocabulary of the specification *)
(* ===================================================================== *)

Module Spec.
Import JS Json ExaMcpClient.

(** ** Failure conditions

    The client throws plain [Error]s; a condition of the specification
    is the error carrying the message of one [throw] site. *)

Definition NoDataField : exn := Error "No data: field found in SSE response".

Definition NoContent : exn := Error "No content in response".

Definition ApiError (code : Z) (message : string) : exn :=
  Error ("Exa API error: " +++ Number_toString code +++ " - " +++ message).

Definition HttpError (status : Z) (reason : string) : exn :=
  Error ("HTTP error: " +++ Number_toString status +++ " " +++ reason).

Definition Timeout (seconds : Z) : exn :=
  Error ("Exa request timed out after " +++ Number_toString seconds +++ "s").

(** ** Texts and lines *)

Definition newline : ascii := "010".

(** The separator of [extractTextContent]: one blank line. *)
Definition blank_line : string := String newline (String newline EmptyString).

(** [c] occurs in [s]. *)
Fixpoint occurs (c : ascii) (s : string) : bool :=
  match s with
  | EmptyString => false
  | String d s' => Ascii.eqb d c || occurs c s'
  end.

(** A line is a text without a line feed. *)
Definition is_line (s : string) : bool := negb (occurs newline s).

(** The text whose lines are [lines]. *)
Definition unlines (lines : list string) : string :=
  String.concat (String newline EmptyString) lines.

(** All the strings of a list, one after the other. *)
Definition concatenation (l : list string) : string :=
  fold_right String.append EmptyString l.

(** A JSON text written with ['] for the double quote. *)
Fixpoint dq (s : string) : string :=
  match s with
  | EmptyString => EmptyString
  | String c s' => String (if Ascii.eqb c "'" then "034"%char else c) (dq s')
  end.

(** ** Candidates *)

(** The candidates as the specification words them: the lines that
    begin with the marker [data:], without the marker and without a
    space that follows it. *)
Definition strip_marker (line : string) : string :=
  match substring line 5 with
  | String " " payload => payload
  | payload => payload
  end.

Definition marked_candidates (text : string) : list string :=
  map strip_marker
    (filter (fun line => startsWith line "data:") (split text newline)).

(** The lines the client retains: the marker and the space are both
    required. *)
Definition is_data_line (line : string) : bool := startsWith line "data: ".

Definition payload (line : string) : string := substring line 6.

(** [s] parses: [JSON.parse(s)] returns. *)
Definition parses (JSON_parse : string -> completion json) (s : string) : bool :=
  returns (JSON_parse s).

(** ** Extraction *)

(** The text fields of the items tagged ["text"], in their order. *)
Fixpoint text_fields (items : list ContentItem) : list string :=
  match items with
  | [] => []
  | item :: rest =>
      if String.eqb (type item) "text" then text item :: text_fields rest
      else text_fields rest
  end.

(** ** Sequences of calls *)

(** One invocation of [callExa]: its arguments, with the behaviour of
    the exchange at that moment. *)
Record Call : Type := {
  call_method : string;
  call_params : option (list (string * json));
  call_fetchFn : Fetch
}.

Section Runs.

Variable JSON_parse : string -> completion json.
Variable JSON_stringify : json -> string.

Definition invoke (c : Call) (s : State) : State * completion json :=
  callExa JSON_parse JSON_stringify
    (call_method c) (call_params c) (call_fetchFn c) s.

(** The request envelope a call builds in state [s]. *)
Definition envelope (c : Call) (s : State) : ExaRequest :=
  snd (nextRequest (call_method c) (call_params c) s).

(** The ids of the envelopes of successive calls, each call starting in
    the state the one before left. *)
Fixpoint call_ids (calls : list Call) (s : State) : list Z :=
  match calls with
  | [] => []
  | c :: rest => id (envelope c s) :: call_ids rest (fst (invoke c s))
  end.

(** The outcomes of successive calls. *)
Fixpoint outcomes (calls : list Call) (s : State) : list (completion json) :=
  match calls with
  | [] => []
  | c :: rest => snd (invoke c s) :: outcomes rest (fst (invoke c s))
  end.

(** The exchange of a request is cancelled: [fetch] rejects with the
    abort error, or it resolves with a success status and reading the
    body rejects with it. *)
Inductive aborted (fetchFn : Fetch) (request : ExaRequest) : Prop :=
| aborted_fetch (m : string) :
    fetchFn EXA_URL (requestInit JSON_stringify request) = Throw (AbortError m) ->
    aborted fetchFn request
| aborted_text (m : string) (response : Response) :
    fetchFn EXA_URL (requestInit JSON_stringify request) = Return response ->
    ok response = true ->
    response_text response = Throw (AbortError m) ->
    aborted fetchFn request.

End Runs.

End Spec.

(* ===================================================================== *)
(** * Sample data, after the unit tests of the client *)
(* ===================================================================== *)

Module Samples.
Import JS Json ExaMcpClient Spec.

(** ** Event streams *)

Definition result_json : string := dq "{'jsonrpc':'2.0','id':1,'result':{}}".

(** One event, framed by an [event:] line and closed by an empty line. *)
Definition single_event : list string :=
  ["event: message"] ++ ("data: " +++ result_json) :: [EmptyString; EmptyString].


Definition no_json_stream : string :=
  unlines ["data: not-json-a"; "data: not-json-b"; EmptyString].

(** ** Decoded envelopes *)

Definition zero_hits_result : ExaResult :=
  {| content := Some []; tools := None |}.

Definition zero_hits : ExaResponse :=
  {| response_jsonrpc := "2.0"; response_id := 1;
     error := None; result := Some zero_hits_result |}.

Definition bad_request_error : ExaError :=
  {| code := 400; message := "Bad request" |}.

Definition bad_request : ExaResponse :=
  {| response_jsonrpc := "2.0"; response_id := 1;
     error := Some bad_request_error; result := None |}.

Definition mixed_items : list ContentItem :=
  [ {| type := "image"; text := "ignored" |};
    {| type := "text"; text := "Hello" |};
    {| type := "text"; text := "World" |} ].

Definition mixed_result : ExaResult :=
  {| content := Some mixed_items; tools := None |}.

Definition mixed : ExaResponse :=
  {| response_jsonrpc := "2.0"; response_id := 1;
     error := None; result := Some mixed_result |}.

Definition invalid_request_error : ExaError :=
  {| code := -32600; message := "Invalid Request" |}.

(** An envelope with both keys. *)
Definition error_and_result : ExaResponse :=
  {| response_jsonrpc := "2.0"; response_id := 7;
     error := Some invalid_request_error; result := Some mixed_result |}.

(** ** Exchanges *)

Definition fetch_ok : Fetch := fun _ _ =>
  Return {| ok := true; status := 200; statusText := "OK";
            response_text :=
              Return (dq "{'jsonrpc':'2.0','id':1,'result':{'content':[{'type':'text','text':'ok'}]}}") |}.

Definition fetch_sse : Fetch := fun _ _ =>
  Return {| ok := true; status := 200; statusText := "OK";
            response_text := Return (unlines single_event) |}.

Definition fetch_bad_request : Fetch := fun _ _ =>
  Return {| ok := false; status := 400; statusText := "Bad Request";
            response_text := Return "Bad Request" |}.

Definition fetch_aborted : Fetch := fun _ _ =>
  Throw (AbortError "The operation was aborted").

(** The body is cut by the abort after the status line arrived. *)
Definition fetch_aborted_body : Fetch := fun _ _ =>
  Return {| ok := true; status := 200; statusText := "OK";
            response_text := Throw (AbortError "The operation was aborted") |}.

Definition search_params : option (list (string * json)) :=
  Some [ ("name", JString "web_search_exa");
         ("arguments", JObject [ ("query", JString "test") ]) ].

Definition call (fetchFn : Fetch) : Call :=
  {| call_method := "tools/call"; call_params := search_params;
     call_fetchFn := fetchFn |}.

Definition three_calls : list Call :=
  [ call fetch_ok; call fetch_bad_request; call fetch_aborted ].

End Samples.

(* ===================================================================== *)
(** * exa-mcp-client.ts: the tool functions *)
(* ===================================================================== *)

Module ExaMcpTools.
Import JS Json ExaMcpClient.

(** ** Objects *)

(** [o[key]] on the members of an object; [None] is [undefined].  The
    members of an object have distinct names; in a list that repeats a
    name the last member counts, as in [JSON.parse]. *)
Fixpoint property (members : list (string * json)) (key : string) : option json :=
  match members with
  | [] => None
  | (k, v) :: rest =>
      match property rest key with
      | Some v' => Some v'
      | None => if String.eqb k key then Some v else None
      end
  end.

(** The member [key: v] of an object literal, as [JSON.stringify] sees
    it: nothing when [v] is [undefined]. *)
Definition member (key : string) (v : option json) : list (string * json) :=
  match v with
  | Some x => [(key, x)]
  | None => []
  end.

(** [v ?? d]: [d] when [v] is [undefined] or [null]. *)
Definition nullish (v : option json) (d : json) : json :=
  match v with
  | None | Some JNull => d
  | Some x => x
  end.

(** ** [response as ExaResponse]

    The tool functions hand the decoded document to
    [extractTextContent] at the type [ExaResponse]; TypeScript does not
    check it.  [asExaResponse] reads a document that has the shape the
    interfaces declare, and is [None] on any other document: what the
    client does there is outside this embedding. *)

(** Where a function of the embedding is defined. *)
Definition modelled (A : Type) : Type := option A.

(** A number that holds a safe integer ([Number.isSafeInteger]). *)
Definition asInteger (v : json) : option Z :=
  let safe (n : Z) :=
    if (Z.abs n <? 2 ^ 53)%Z then Some n else None in
  match v with
  | JNumber m e =>
      if (0 <=? e)%Z then safe (m * 10 ^ e)%Z
      else if (m mod 10 ^ (- e) =? 0)%Z then safe (m / 10 ^ (- e))%Z
      else None
  | _ => None
  end.

Definition asString (v : json) : option string :=
  match v with
  | JString s => Some s
  | _ => None
  end.

(** A field the interface requires. *)
Definition required {A} (members : list (string * json)) (key : string)
    (read : json -> option A) : option A :=
  match property members key with
  | Some v => read v
  | None => None
  end.

(** A field the interface marks with [?]. *)
Definition optional {A} (members : list (string * json)) (key : string)
    (read : json -> option A) : option (option A) :=
  match property members key with
  | Some v => option_map Some (read v)
  | None => Some None
  end.

(** An [Array<T>], every element read. *)
Fixpoint asArrayOf {A} (read : json -> option A) (elements : list json)
  : option (list A) :=
  match elements with
  | [] => Some []
  | v :: rest =>
      match read v, asArrayOf read rest with
      | Some a, Some l => Some (a :: l)
      | _, _ => None
      end
  end.

Definition asArray {A} (read : json -> option A) (v : json) : option (list A) :=
  match v with
  | JArray elements => asArrayOf read elements
  | _ => None
  end.

Definition asContentItem (v : json) : option ContentItem :=
  match v with
  | JObject ms =>
      match required ms "type" asString, required ms "text" asString with
      | Some ty, Some tx => Some {| type := ty; text := tx |}
      | _, _ => None
      end
  | _ => None
  end.

Definition asRemoteTool (v : json) : option RemoteTool :=
  match v with
  | JObject ms =>
      match required ms "name" asString,
            required ms "description" asString,
            required ms "inputSchema" Some with
      | Some n, Some d, Some schema =>
          Some {| name := n; description := d; inputSchema := schema |}
      | _, _, _ => None
      end
  | _ => None
  end.

Definition asExaResult (v : json) : option ExaResult :=
  match v with
  | JObject ms =>
      match optional ms "content" (asArray asContentItem),
            optional ms "tools" (asArray asRemoteTool) with
      | Some c, Some t => Some {| content := c; tools := t |}
      | _, _ => None
      end
  | _ => None
  end.

Definition asExaError (v : json) : option ExaError :=
  match v with
  | JObject ms =>
      match required ms "code" asInteger, required ms "message" asString with
      | Some c, Some m => Some {| code := c; message := m |}
      | _, _ => None
      end
  | _ => None
  end.

Definition asExaResponse (v : json) : modelled ExaResponse :=
  match v with
  | JObject ms =>
      match required ms "jsonrpc" asString,
            required ms "id" asInteger,
            optional ms "error" asExaError,
            optional ms "result" asExaResult with
      | Some version, Some i, Some e, Some r =>
          if String.eqb version "2.0" then
            Some {| response_jsonrpc := version; response_id := i;
                    error := e; result := r |}
          else None
      | _, _, _, _ => None
      end
  | _ => None
  end.

Section Tools.

Variable JSON_parse : string -> completion json.
Variable JSON_stringify : json -> string.

(** The object every tool function passes to [callExa] as [params]. *)
Definition toolParams (name : string) (arguments : list (string * json))
  : option (list (string * json)) :=
  Some [ ("name", JString name); ("arguments", JObject arguments) ].

(** The two statements every tool function ends with:
    [const response = await callExa("tools/call", { name, arguments })]
    and [return extractTextContent(response)].  [fetchFn] is the global
    [fetch], the default of [callExa]. *)
Definition toolsCall (name : string) (arguments : list (string * json))
    (fetchFn : Fetch) (s : State) : State * modelled (completion string) :=
  let '(s', response) :=
    callExa JSON_parse JSON_stringify "tools/call" (toolParams name arguments)
      fetchFn s in
  (s', match response with
       | Throw e => Some (Throw e)
       | Return v => option_map extractTextContent (asExaResponse v)
       end).

(** The [args] object of [twitterSearch] and of [financialSearch], which
    differ by the category only. *)
Definition publishedArgs (category : string) (params : list (string * json))
  : list (string * json) :=
  member "query" (property params "query")
  ++ [ ("category", JString category);
       ("numResults", nullish (property params "numResults") (JNumber 10 0)) ]
  ++ member "startPublishedDate" (property params "startPublishedDate")
  ++ member "endPublishedDate" (property params "endPublishedDate").

Definition webSearch (params : list (string * json)) :=
  toolsCall "web_search_exa" params.

Definition codeSearch (params : list (string * json)) :=
  toolsCall "get_code_context_exa" params.

Definition companyResearch (params : list (string * json)) :=
  toolsCall "company_research_exa" params.

Definition twitterSearch (params : list (string * json)) :=
  toolsCall "web_search_advanced_exa" (publishedArgs "tweet" params).

Definition peopleSearch (params : list (string * json)) :=
  toolsCall "people_search_exa" params.

Definition financialSearch (params : list (string * json)) :=
  toolsCall "web_search_advanced_exa" (publishedArgs "financial report" params).

End Tools.

End ExaMcpTools.

(* ===================================================================== *)
(** * index.ts *)
(* ===================================================================== *)

Module Index.
Import JS Json ExaMcpClient ExaMcpTools.

(** What [execute] resolves to. *)
Record ToolResult : Type := {
  result_content : list ContentItem;
  isError : option bool
}.

(** What a rejected promise carries: an [Error], or any other value,
    kept as [String(value)]. *)
Inductive rejection : Type :=
| IsError (e : exn)
| NotError (String_of : string).

(** A promise of a string, settled. *)
Inductive settled : Type :=
| Fulfilled (result : string)
| Rejected (error : rejection).

(** The tool functions reject with what [callExa] and
    [extractTextContent] throw. *)
Definition settle (c : completion string) : settled :=
  match c with
  | Return s => Fulfilled s
  | Throw e => Rejected (IsError e)
  end.

(** The [try] and [catch] of [wrapExecute], on the settled promise of
    [fn(params)]. *)
Definition wrapped (outcome : settled) : ToolResult :=
  match outcome with
  | Fulfilled result =>
      {| result_content := [ {| type := "text"; text := result |} ];
         isError := None |}
  | Rejected error =>
      let message :=
        match error with
        | IsError e => exn_message e
        | NotError String_of => String_of
        end in
      {| result_content := [ {| type := "text"; text := "Error: " +++ message |} ];
         isError := Some true |}
  end.

(** A tool function in its surroundings: the global [fetch] and the
    state of the client module. *)
Definition ToolFunction : Type :=
  list (string * json) -> Fetch -> State -> State * modelled (completion string).

Definition Execute : Type :=
  string -> list (string * json) -> Fetch -> State -> State * modelled ToolResult.

Definition wrapExecute (fn : ToolFunction) : Execute :=
  fun _id params fetchFn s =>
    let '(s', outcome) := fn params fetchFn s in
    (s', option_map (fun c => wrapped (settle c)) outcome).

(** [interface ToolDefinition] *)
Record ToolDefinition : Type := {
  tool_name : string;
  tool_description : string;
  parameters : json;
  execute : Execute
}.

(** A property of a parameter schema. *)
Definition schema_property (type description : string) : json :=
  JObject [ ("type", JString type); ("description", JString description) ].

Definition schema_enum (type : string) (enum : list string) (description : string)
  : json :=
  JObject [ ("type", JString type);
            ("enum", JArray (map JString enum));
            ("description", JString description) ].

Definition schema (properties : list (string * json)) (required : list string)
  : json :=
  JObject [ ("type", JString "object");
            ("properties", JObject properties);
            ("required", JArray (map JString required)) ].

Section Tools.

Variable JSON_parse : string -> completion json.
Variable JSON_stringify : json -> string.

Definition TOOLS : list ToolDefinition :=
  [ {| tool_name := "exa_web_search";
       tool_description :=
         "Search the web using Exa AI neural search. Find current information, news, facts, or answer questions about any topic. Returns clean, formatted content ready for LLM use.";
       parameters :=
         schema
           [ ("query", schema_property "string" "Web search query");
             ("numResults",
               schema_property "number"
                 "Number of search results to return (default: 8)");
             ("type",
               schema_enum "string" ["auto"; "fast"; "deep"]
                 "Search type - 'auto': balanced search (default), 'fast': quick results, 'deep': comprehensive research");
             ("livecrawl",
               schema_enum "string" ["fallback"; "preferred"]
                 "Live crawl mode - 'fallback': use live crawling as backup if cached unavailable, 'preferred': prioritize live crawling") ]
           ["query"];
       execute := wrapExecute (webSearch JSON_parse JSON_stringify) |};
    {| tool_name := "exa_code_search";
       tool_description :=
         "Find code examples, documentation, and programming solutions from GitHub, Stack Overflow, and official docs. Useful for API usage, library examples, code snippets, and debugging help.";
       parameters :=
         schema
           [ ("query",
               schema_property "string"
                 "Search query for code context - e.g., 'React useState hook examples', 'Python pandas dataframe filtering'");
             ("tokensNum",
               schema_property "number"
                 "Number of tokens to return (1000-50000). Lower for focused queries, higher for comprehensive docs (default: 5000)") ]
           ["query"];
       execute := wrapExecute (codeSearch JSON_parse JSON_stringify) |};
    {| tool_name := "exa_company_research";
       tool_description :=
         "Research any company to get business information, news, and insights. Returns information from trusted business sources about products, services, recent news, or industry position.";
       parameters :=
         schema
           [ ("companyName",
               schema_property "string" "Name of the company to research");
             ("numResults",
               schema_property "number"
                 "Number of search results to return (default: 5)") ]
           ["companyName"];
       execute := wrapExecute (companyResearch JSON_parse JSON_stringify) |};
    {| tool_name := "exa_twitter_search";
       tool_description :=
         "Search Twitter/X posts. Find tweets, discussions, and social commentary on any topic. Useful for tracking public sentiment, announcements, and trending discussions.";
       parameters :=
         schema
           [ ("query",
               schema_property "string" "Search query for Twitter/X posts");
             ("numResults",
               schema_property "number"
                 "Number of tweets to return (default: 10)");
             ("startPublishedDate",
               schema_property "string"
                 "Filter tweets published after this date (ISO 8601 format, e.g., '2024-01-01T00:00:00.000Z')");
             ("endPublishedDate",
               schema_property "string"
                 "Filter tweets published before this date (ISO 8601 format)") ]
           ["query"];
       execute := wrapExecute (twitterSearch JSON_parse JSON_stringify) |};
    {| tool_name := "exa_people_search";
       tool_description :=
         "Find people and their professional profiles. Search for individuals by name, role, company, or expertise. Returns public LinkedIn and professional profile data.";
       parameters :=
         schema
           [ ("query",
               schema_property "string"
                 "Search query for people - e.g., 'CTO at Anthropic', 'machine learning researchers Stanford'");
             ("numResults",
               schema_property "number"
                 "Number of results to return (default: 5)") ]
           ["query"];
       execute := wrapExecute (peopleSearch JSON_parse JSON_stringify) |};
    {| tool_name := "exa_financial_report_search";
       tool_description :=
         "Search financial reports — 10-K, 10-Q, annual reports, quarterly earnings, and SEC filings for public companies.";
       parameters :=
         schema
           [ ("query",
               schema_property "string"
                 "Search query for financial reports - e.g., 'Apple 2024 Q4 earnings', 'Tesla annual report 2024'");
             ("numResults",
               schema_property "number"
                 "Number of results to return (default: 10)");
             ("startPublishedDate",
               schema_property "string"
                 "Filter reports published after this date (ISO 8601 format)");
             ("endPublishedDate",
               schema_property "string"
                 "Filter reports published before this date (ISO 8601 format)") ]
           ["query"];
       execute := wrapExecute (financialSearch JSON_parse JSON_stringify) |} ].

(** The default export: [for (const tool of TOOLS) api.registerTool(tool)],
    on a host whose [registerTool] changes a state of its own. *)
Definition pluginInit {Host : Type}
    (registerTool : ToolDefinition -> Host -> Host) (host : Host) : Host :=
  fold_left (fun h tool => registerTool tool h) TOOLS host.

End Tools.

End Index.

(* ===================================================================== *)
(** * Vocabulary for the tool functions *)
(* ===================================================================== *)

Module ToolSpec.
Import JS Json ExaMcpClient ExaMcpTools Index Spec.

(** The exchange of [request] resolved with a success status and the
    body [text]. *)
Definition received (JSON_stringify : json -> string) (fetchFn : Fetch)
    (request : ExaRequest) (text : string) : Prop :=
  exists response,
    fetchFn EXA_URL (requestInit JSON_stringify request) = Return response
    /\ ok response = true
    /\ response_text response = Return text.

(** The exchange of [request] rejected with [e], when sending or when
    reading the body. *)
Definition rejected (JSON_stringify : json -> string) (fetchFn : Fetch)
    (request : ExaRequest) (e : exn) : Prop :=
  fetchFn EXA_URL (requestInit JSON_stringify request) = Throw e
  \/ exists response,
       fetchFn EXA_URL (requestInit JSON_stringify request) = Return response
       /\ ok response = true
       /\ response_text response = Throw e.

(** The remote tools the URL of the endpoint lists. *)
Definition allowed_tools : list string := split EXA_TOOLS ",".

(** The six tool functions. *)
Definition tool_functions (JSON_parse : string -> completion json)
    (JSON_stringify : json -> string) : list ToolFunction :=
  [ webSearch JSON_parse JSON_stringify;
    codeSearch JSON_parse JSON_stringify;
    companyResearch JSON_parse JSON_stringify;
    twitterSearch JSON_parse JSON_stringify;
    peopleSearch JSON_parse JSON_stringify;
    financialSearch JSON_parse JSON_stringify ].

(** [fn] calls the remote tool [name] with the arguments [arguments]
    makes of its parameters. *)
Definition calls (JSON_parse : string -> completion json)
    (JSON_stringify : json -> string) (fn : ToolFunction)
    (name : string) (arguments : list (string * json) -> list (string * json))
  : Prop :=
  forall params fetchFn s,
    fn params fetchFn s
    = toolsCall JSON_parse JSON_stringify name (arguments params) fetchFn s.

(** The request a tool function sends in state [s]. *)
Definition toolRequest (name : string) (arguments : list (string * json))
    (s : State) : ExaRequest :=
  snd (nextRequest "tools/call" (toolParams name arguments) s).

(** The names of the properties a parameter schema declares, and the
    names it requires. *)
Definition declared (parameters : json) : list string :=
  match parameters with
  | JObject ms =>
      match property ms "properties" with
      | Some (JObject props) => map fst props
      | _ => []
      end
  | _ => []
  end.

Definition required_names (parameters : json) : list string :=
  match parameters with
  | JObject ms =>
      match property ms "required" with
      | Some (JArray names) =>
          flat_map (fun v => match v with JString n => [n] | _ => [] end) names
      | _ => []
      end
  | _ => []
  end.

(** The one item of a tool result. *)
Definition text_result (t : string) (failed : bool) : ToolResult :=
  {| result_content := [ {| type := "text"; text := t |} ];
     isError := if failed then Some true else None |}.

End ToolSpec.

(* ===================================================================== *)
(** * Sample data for the tool functions *)
(* ===================================================================== *)

Module ToolSamples.
Import JS Json ExaMcpClient ExaMcpTools Index Spec Samples ToolSpec.

(** A JSON document cut in two [data: ] lines. *)
Definition split_document : string :=
  unlines [ "data: " +++ dq "{'jsonrpc':'2.0','id':1,";
            "data: " +++ dq "'result':{}}" ].

Definition fetch_split_document : Fetch := fun _ _ =>
  Return {| ok := true; status := 200; statusText := "OK";
            response_text := Return split_document |}.


Definition fetch_no_data : Fetch := fun _ _ =>
  Return {| ok := true; status := 200; statusText := "OK";
            response_text := Return "event: ping" |}.

(** A refused connection. *)
Definition fetch_failed : Fetch := fun _ _ => Throw (TypeError "fetch failed").

Definition fetch_api_error : Fetch := fun _ _ =>
  Return {| ok := true; status := 200; statusText := "OK";
            response_text :=
              Return (dq "{'jsonrpc':'2.0','id':1,'error':{'code':400,'message':'Bad request'}}") |}.

(** The parameters of a Twitter search that asks for no result and
    tries to set the category. *)
Definition tweet_params : list (string * json) :=
  [ ("query", JString "AI agents");
    ("numResults", JNumber 0 0);
    ("category", JString "news");
    ("endPublishedDate", JString "2024-12-31T00:00:00.000Z") ].

Definition query_only : list (string * json) := [ ("query", JString "OpenAI") ].

(** The envelope [fetch_ok] answers with, decoded. *)
Definition ok_items : list ContentItem := [ {| type := "text"; text := "ok" |} ].

Definition ok_result : ExaResult := {| content := Some ok_items; tools := None |}.

Definition ok_response : ExaResponse :=
  {| response_jsonrpc := "2.0"; response_id := 1;
     error := None; result := Some ok_result |}.

Definition ok_document : json :=
  JObject [ ("jsonrpc", JString "2.0"); ("id", JNumber 1 0);
            ("result",
              JObject [ ("content",
                         JArray [ JObject [ ("type", JString "text");
                                            ("text", JString "ok") ] ]) ]) ].

(** The fourth tool of the plugin, the Twitter search. *)
Definition twitter_tool : ToolDefinition :=
  nth 3 (TOOLS Json.parse Json.stringify)
    {| tool_name := EmptyString; tool_description := EmptyString;
       parameters := JNull;
       execute := wrapExecute (webSearch Json.parse Json.stringify) |}.

(** A host that keeps the names it is given, in order. *)
Definition record_name (tool : ToolDefinition) (names : list string)
  : list string :=
  names ++ [tool_name tool].

End ToolSamples.

(* ===================================================================== *)
(** * A long process lifetime *)
(* ===================================================================== *)

Module Lifetime.
Import JS Json ExaMcpClient Spec Samples.

(** The state of the client module after a sequence of calls. *)
Definition state_after (JSON_parse : string -> completion json)
    (JSON_stringify : json -> string) (calls : list Call) (s : State) : State :=
  fold_left (fun st c => fst (invoke JSON_parse JSON_stringify c st)) calls s.

(** The number of calls after which the counter holds the last safe
    integer. *)
Definition safe_calls : nat := Z.to_nat (2 ^ 53 - 1).

(** 2^53 + 1 calls of one process: [safe_calls] calls and two more. *)
Definition calls_beyond : list Call := repeat (call fetch_ok) (safe_calls + 2).

End Lifetime.

(* ===================================================================== *)
(** * Strings, lines and joins *)
(* ===================================================================== *)

Module StringFacts.
Import JS Spec.

Lemma append_assoc (a b c : string) : (a +++ b) +++ c = a +++ b +++ c.
Proof.
  induction a as [|x a IH]; simpl; [reflexivity | now rewrite IH].
Qed.

Lemma append_empty_r (a : string) : a +++ EmptyString = a.
Proof.
  induction a as [|x a IH]; simpl; [reflexivity | now rewrite IH].
Qed.

Lemma startsWith_append (p s : string) : startsWith (p +++ s) p = true.
Proof.
  induction p as [|c p IH]; simpl; [reflexivity |].
  now rewrite Ascii.eqb_refl, IH.
Qed.

(** A string that starts with [p] is [p] followed by what [substring]
    leaves. *)
Lemma startsWith_substring (p s : string) :
  startsWith s p = true -> s = p +++ substring s (String.length p).
Proof.
  revert s; induction p as [|c p IH]; intros s H; simpl in *; [reflexivity |].
  destruct s as [|d s]; [discriminate |].
  apply andb_true_iff in H as [Hc Hp].
  apply Ascii.eqb_eq in Hc; subst d.
  now rewrite <- (IH s Hp).
Qed.

Lemma substring_append (p s : string) :
  substring (p +++ s) (String.length p) = s.
Proof.
  induction p as [|c p IH]; simpl; [reflexivity | exact IH].
Qed.

(** [includes] finds a string wherever it was put. *)
Lemma includes_append (a m b : string) : includes (a +++ m +++ b) m = true.
Proof.
  induction a as [|c a IH]; simpl.
  - destruct (m +++ b) eqn:E; simpl; rewrite <- E, startsWith_append; reflexivity.
  - rewrite IH. apply orb_true_r.
Qed.

(** ** [join] *)

Lemma join_loop_append (R : string) (rest : list string) (sep : string) :
  join_loop R rest sep = R +++ join_loop EmptyString rest sep.
Proof.
  revert R; induction rest as [|x rest IH]; intros R; simpl.
  - now rewrite append_empty_r.
  - rewrite (IH (R +++ sep +++ x)), (IH (sep +++ x)).
    now rewrite !append_assoc.
Qed.

Lemma join_cons (x y : string) (rest : list string) (sep : string) :
  join (x :: y :: rest) sep = x +++ sep +++ join (y :: rest) sep.
Proof.
  simpl. rewrite (join_loop_append (x +++ sep +++ y)), (join_loop_append y).
  now rewrite !append_assoc.
Qed.

(** The accumulating loop of [join] computes the library's [concat]. *)
Lemma join_concat (a : list string) (sep : string) :
  join a sep = String.concat sep a.
Proof.
  induction a as [|x [|y rest] IH]; try reflexivity.
  rewrite join_cons, IH. reflexivity.
Qed.

Lemma concat_empty (a : list string) :
  String.concat EmptyString a = concatenation a.
Proof.
  induction a as [|x [|y rest] IH]; simpl in *.
  - reflexivity.
  - now rewrite append_empty_r.
  - now rewrite IH.
Qed.

Lemma join_empty (a : list string) : join a EmptyString = concatenation a.
Proof. now rewrite join_concat, concat_empty. Qed.

(** ** [split] *)

Lemma split_not_nil (s : string) (sep : ascii) : split s sep <> [].
Proof.
  destruct s as [|c s]; simpl; [discriminate |].
  destruct (Ascii.eqb c sep); [discriminate |].
  destruct (split s sep); discriminate.
Qed.




(** The pieces of a split, joined by the separator, are the text; no
    piece holds the separator. *)
Lemma unlines_split (s : string) : unlines (split s newline) = s.
Proof.
  unfold unlines.
  induction s as [|c s IH]; [reflexivity |].
  simpl split. destruct (Ascii.eqb c newline) eqn:E.
  - apply Ascii.eqb_eq in E; subst c.
    destruct (split s newline) as [|p ps] eqn:Es;
      [now apply split_not_nil in Es |].
    change (String.concat (String newline EmptyString) (EmptyString :: p :: ps))
      with (String newline (String.concat (String newline EmptyString) (p :: ps))).
    now rewrite IH.
  - destruct (split s newline) as [|p ps] eqn:Es;
      [now apply split_not_nil in Es |].
    destruct ps as [|q qs]; simpl in *; now rewrite <- IH.
Qed.

Lemma split_lines (s : string) : forallb is_line (split s newline) = true.
Proof.
  induction s as [|c s IH]; [reflexivity |].
  simpl split. destruct (Ascii.eqb c newline) eqn:E.
  - simpl. exact IH.
  - destruct (split s newline) as [|p ps] eqn:Es;
      [now apply split_not_nil in Es |].
    simpl in *. apply andb_true_iff in IH as [Hp Hps].
    rewrite Hps, andb_true_r. unfold is_line in *. simpl. now rewrite E.
Qed.

End StringFacts.

(* ===================================================================== *)
(** * The decoder: [parseSSEResponse] *)
(* ===================================================================== *)

Module Decoder.
Import JS Json ExaMcpClient Spec StringFacts.

(** ** The first loop *)

Lemma collect_fold (lines acc : list string) :
  fold_left collect lines acc
  = acc ++ map payload (filter is_data_line lines).
Proof.
  revert acc; induction lines as [|l lines IH]; intros acc; simpl.
  - now rewrite app_nil_r.
  - rewrite IH. unfold collect, is_data_line, push, payload.
    destruct (startsWith l "data: "); simpl; [now rewrite <- app_assoc | reflexivity].
Qed.

Lemma dataLines_filter (text : string) :
  dataLines text = map payload (filter is_data_line (split text newline)).
Proof. unfold dataLines. apply (collect_fold _ []). Qed.

Lemma data_line_payload (line : string) :
  is_data_line line = true -> "data: " +++ payload line = line.
Proof.
  intros H. symmetry. exact (startsWith_substring "data: " line H).
Qed.


Section Scan.

Variable JSON_parse : string -> completion json.

Local Abbreviation valid := (parses JSON_parse).
Local Abbreviation invalid := (fun s => negb (parses JSON_parse s)).

(** ** The second loop *)


(** With no element that parses the loop runs to its end. *)
Lemma scan_none (l : list string) (n : nat) :
  forallb invalid l = true -> scan JSON_parse l n = None.
Proof.
  intros Hl. induction n as [|i IH]; [reflexivity |].
  simpl. destruct (nth_error l i) as [line|] eqn:E; [| exact IH].
  apply nth_error_In in E.
  rewrite forallb_forall in Hl. specialize (Hl line E).
  unfold parses in Hl. destruct (JSON_parse line); [discriminate | exact IH].
Qed.



Lemma parseSSEResponse_nonempty (text : string) :
  dataLines text <> [] ->
  parseSSEResponse JSON_parse text
  = match scan JSON_parse (dataLines text) (List.length (dataLines text)) with
    | Some line => Return line
    | None => Return (join (dataLines text) EmptyString)
    end.
Proof.
  intros Hne. unfold parseSSEResponse.
  destruct (dataLines text); [contradiction | reflexivity].
Qed.

Lemma parseSSEResponse_empty (text : string) :
  dataLines text = [] ->
  parseSSEResponse JSON_parse text = Throw NoDataField.
Proof. intros H. unfold parseSSEResponse. now rewrite H. Qed.

End Scan.

End Decoder.

(* ===================================================================== *)
(** * Properties of the decoder *)
(* ===================================================================== *)

Import JS Json ExaMcpClient Spec Samples StringFacts Decoder.






(** C2, as the specification words it, fails: a line that begins with
    the marker [data:] but has no space after it is a candidate of the
    specification and is not retained by the client. *)
Lemma marker_without_space_not_retained :
  ~ (forall text : string, dataLines text = marked_candidates text).
Proof.
  intros H. specialize (H "data:{}"). vm_compute in H. discriminate.
Qed.

(** C2, amended.  Let [lines] be the lines of the text (the text is
    [lines] joined by line feeds, and no line holds a line feed).  The
    candidates are the lines that begin with the six characters
    [data: ], marker and space, each without those six characters, in
    the order of the lines; every other line, an [event:] line or a
    [data:] line without the space, is ignored. *)
Theorem dataLines_are_the_data_lines :
  forall text : string,
    let lines := split text newline in
    unlines lines = text
    /\ forallb is_line lines = true
    /\ dataLines text = map payload (filter is_data_line lines)
    /\ Forall (fun line => line = "data: " +++ payload line)
         (filter is_data_line lines).
Proof.
  intros text lines. repeat split.
  - apply unlines_split.
  - apply split_lines.
  - apply dataLines_filter.
  - apply Forall_forall. intros line Hin.
    apply filter_In in Hin as [_ Hd].
    symmetry. now apply data_line_payload.
Qed.

(** C6. When there are candidates and none parses, [parseSSEResponse]
    returns (it does not throw) all the candidates concatenated in
    their order. *)
Theorem parseSSEResponse_concatenates_invalid_candidates :
  forall (JSON_parse : string -> completion json) (text : string),
    dataLines text <> [] ->
    forallb (fun s => negb (parses JSON_parse s)) (dataLines text) = true ->
    parseSSEResponse JSON_parse text = Return (concatenation (dataLines text)).
Proof.
  intros JSON_parse text Hne Hall.
  rewrite parseSSEResponse_nonempty by assumption.
  rewrite (scan_none JSON_parse _ _ Hall). now rewrite join_empty.
Qed.

Lemma parseSSEResponse_concatenates_invalid_candidates_witness :
  dataLines no_json_stream <> []
  /\ forallb (fun s => negb (parses Json.parse s)) (dataLines no_json_stream)
     = true
  /\ parseSSEResponse Json.parse no_json_stream = Return "not-json-anot-json-b".
Proof.
  split; [vm_compute; discriminate | split; [vm_compute; reflexivity |]].
  apply (parseSSEResponse_concatenates_invalid_candidates Json.parse
           no_json_stream).
  - vm_compute; discriminate.
  - vm_compute; reflexivity.
Defined.

(** C7. Let [lines] be the lines of the body.  [parseSSEResponse]
    throws exactly when no line begins with [data: ], that is when the
    body yields no candidate; what it throws then is the NoDataField
    error; and a body with a line that begins with [data: ] makes it
    return a string. *)
Theorem parseSSEResponse_throws_iff_no_candidate :
  forall (JSON_parse : string -> completion json) (text : string),
    let lines := split text newline in
    unlines lines = text
    /\ (returns (parseSSEResponse JSON_parse text) = false
        <-> filter is_data_line lines = [])
    /\ (filter is_data_line lines = [] <-> dataLines text = [])
    /\ (forall e, parseSSEResponse JSON_parse text = Throw e -> e = NoDataField)
    /\ (filter is_data_line lines <> [] ->
        exists s, parseSSEResponse JSON_parse text = Return s).
Proof.
  intros JSON_parse text lines.
  assert (Hiff : filter is_data_line lines = [] <-> dataLines text = []).
  { rewrite dataLines_filter. fold lines.
    destruct (filter is_data_line lines); simpl; split;
      try reflexivity; discriminate. }
  split; [apply unlines_split |].
  destruct (dataLines text) as [|d ds] eqn:E.
  - rewrite (parseSSEResponse_empty JSON_parse text E).
    split; [split; [intros _; now apply Hiff | reflexivity] |].
    split; [exact Hiff |].
    split; [intros e H; now inversion H |].
    intros H. contradiction H. now apply Hiff.
  - assert (Hne : dataLines text <> []) by (rewrite E; discriminate).
    assert (Hf : filter is_data_line lines <> [])
      by (intros H; apply Hiff in H; discriminate).
    rewrite (parseSSEResponse_nonempty JSON_parse text Hne).
    destruct (scan JSON_parse (dataLines text) (List.length (dataLines text)));
      (split; [split; [discriminate | intros H; contradiction] |];
       split; [exact Hiff |];
       split; [discriminate | eauto]).
Qed.

(** C7 on two bodies: one without a [data: ] line, which throws, and
    the same body with such a line added, which returns. *)
Lemma parseSSEResponse_throws_iff_no_candidate_witness :
  (filter is_data_line (split (unlines ["event: message"; EmptyString]) newline)
   = []
   /\ parseSSEResponse Json.parse (unlines ["event: message"; EmptyString])
      = Throw NoDataField)
  /\ (filter is_data_line (split (unlines single_event) newline) <> []
      /\ exists s, parseSSEResponse Json.parse (unlines single_event) = Return s).
Proof.
  split; split.
  - reflexivity.
  - pose proof (parseSSEResponse_throws_iff_no_candidate Json.parse
                  (unlines ["event: message"; EmptyString]))
      as (_ & Hthrow & _ & Honly & _).
    destruct (parseSSEResponse Json.parse
                (unlines ["event: message"; EmptyString])) as [r | e] eqn:E.
    + assert (Hf : returns (@Return string r) = false)
        by (apply Hthrow; reflexivity).
      discriminate Hf.
    + now rewrite (Honly e eq_refl).
  - vm_compute; discriminate.
  - apply (parseSSEResponse_throws_iff_no_candidate Json.parse
             (unlines single_event)).
    vm_compute; discriminate.
Defined.

(* ===================================================================== *)
(** * Properties of the extractor *)
(* ===================================================================== *)

(** [filter] and [map] compute the text fields of the specification. *)
Lemma text_fields_filter_map (items : list ContentItem) :
  map text (filter (fun item => String.eqb (type item) "text") items)
  = text_fields items.
Proof.
  induction items as [|item items IH]; simpl; [reflexivity |].
  destruct (String.eqb (type item) "text"); simpl; now rewrite IH.
Qed.

Lemma extractTextContent_content (response : ExaResponse) (r : ExaResult)
    (items : list ContentItem) :
  error response = None -> result response = Some r -> content r = Some items ->
  extractTextContent response
  = Return (String.concat blank_line (text_fields items)).
Proof.
  intros He Hr Hc. unfold extractTextContent. rewrite He, Hr, Hc.
  now rewrite text_fields_filter_map, join_concat.
Qed.

Lemma extractTextContent_error (response : ExaResponse) (err : ExaError) :
  error response = Some err ->
  extractTextContent response = Throw (ApiError (code err) (message err)).
Proof. intros He. unfold extractTextContent. now rewrite He. Qed.

(** C3. On a Success envelope, [extractTextContent] throws the
    NoContent error exactly when [result] has no [content]; it throws
    nothing else; an empty [content], or one whose items are all
    dropped by the filter, gives the empty string. *)
Theorem extractTextContent_NoContent_iff_content_absent :
  forall (response : ExaResponse) (r : ExaResult),
    error response = None ->
    result response = Some r ->
    (extractTextContent response = Throw NoContent <-> content r = None)
    /\ (returns (extractTextContent response) = false <-> content r = None)
    /\ (content r = Some [] -> extractTextContent response = Return EmptyString)
    /\ (forall items, content r = Some items -> text_fields items = [] ->
        extractTextContent response = Return EmptyString).
Proof.
  intros response r He Hr.
  destruct (content r) as [items|] eqn:Hc.
  - rewrite (extractTextContent_content response r items He Hr Hc).
    repeat split; try discriminate.
    + intros H. inversion H. reflexivity.
    + intros items' H Hnil. inversion H; subst. now rewrite Hnil.
  - unfold extractTextContent. rewrite He, Hr, Hc.
    repeat split; discriminate.
Qed.

Lemma extractTextContent_NoContent_iff_content_absent_witness :
  error zero_hits = None
  /\ result zero_hits = Some zero_hits_result
  /\ extractTextContent zero_hits = Return EmptyString.
Proof.
  split; [reflexivity | split; [reflexivity |]].
  apply (extractTextContent_NoContent_iff_content_absent
           zero_hits zero_hits_result);
    reflexivity.
Defined.

(** C4. On a Failure envelope whose code is a safe integer (below 2^53
    in magnitude, where a number prints as the decimal digits of the
    integer it holds), [extractTextContent] throws the ApiError error,
    and its message holds the decimal digits of the code and the
    message of the envelope as it is. *)
Theorem extractTextContent_ApiError :
  forall (response : ExaResponse) (err : ExaError),
    error response = Some err ->
    (Z.abs (code err) < 2 ^ 53)%Z ->
    extractTextContent response = Throw (ApiError (code err) (message err))
    /\ includes (exn_message (ApiError (code err) (message err)))
         (Number_toString (code err)) = true
    /\ includes (exn_message (ApiError (code err) (message err)))
         (message err) = true.
Proof.
  intros response err He _. split; [now apply extractTextContent_error |].
  unfold ApiError, exn_message. split.
  - apply includes_append.
  - pose proof (includes_append
                  ("Exa API error: " +++ Number_toString (code err) +++ " - ")
                  (message err) EmptyString) as H.
    rewrite append_empty_r, !append_assoc in H. exact H.
Qed.

Lemma extractTextContent_ApiError_witness :
  error bad_request = Some bad_request_error
  /\ (Z.abs (code bad_request_error) < 2 ^ 53)%Z
  /\ extractTextContent bad_request
     = Throw (Error "Exa API error: 400 - Bad request")
  /\ includes "Exa API error: 400 - Bad request" "400" = true
  /\ includes "Exa API error: 400 - Bad request" "Bad request" = true.
Proof.
  split; [reflexivity | split; [reflexivity |]].
  apply (extractTextContent_ApiError bad_request bad_request_error);
    reflexivity.
Defined.

(** C5. With a [content] list present, [extractTextContent] returns the
    text fields of the items tagged ["text"], in their order, with one
    blank line between two of them; the other items are dropped and
    nothing is thrown. *)
Theorem extractTextContent_joins_text_items :
  forall (response : ExaResponse) (r : ExaResult) (items : list ContentItem),
    error response = None ->
    result response = Some r ->
    content r = Some items ->
    extractTextContent response
    = Return (String.concat blank_line (text_fields items)).
Proof. exact extractTextContent_content. Qed.

Lemma extractTextContent_joins_text_items_witness :
  error mixed = None
  /\ result mixed = Some mixed_result
  /\ content mixed_result = Some mixed_items
  /\ extractTextContent mixed = Return ("Hello" +++ blank_line +++ "World").
Proof.
  split; [reflexivity | split; [reflexivity | split; [reflexivity |]]].
  apply (extractTextContent_joins_text_items mixed mixed_result mixed_items);
    reflexivity.
Defined.

(** C10. An envelope with both an [error] and a [result], whatever the
    [content] of the result, is a Failure: [extractTextContent] throws
    the ApiError error and never looks at the result. *)
Theorem extractTextContent_error_before_result :
  forall (response : ExaResponse) (err : ExaError) (r : ExaResult),
    error response = Some err ->
    result response = Some r ->
    extractTextContent response = Throw (ApiError (code err) (message err)).
Proof. intros response err r He _. now apply extractTextContent_error. Qed.

Lemma extractTextContent_error_before_result_witness :
  error error_and_result = Some invalid_request_error
  /\ result error_and_result = Some mixed_result
  /\ extractTextContent error_and_result
     = Throw (Error "Exa API error: -32600 - Invalid Request").
Proof.
  split; [reflexivity | split; [reflexivity |]].
  apply (extractTextContent_error_before_result
           error_and_result invalid_request_error mixed_result);
    reflexivity.
Defined.

(* ===================================================================== *)
(** * Properties of the transport *)
(* ===================================================================== *)

Section Transport.

Variable JSON_parse : string -> completion json.
Variable JSON_stringify : json -> string.

Local Abbreviation callExa' := (callExa JSON_parse JSON_stringify).

(** The counter is incremented first, whatever the exchange does
    afterwards: the state a call leaves holds the id it issued. *)
Lemma callExa_state (method : string) (params : option (list (string * json)))
    (fetchFn : Fetch) (s : State) :
  fst (callExa' method params fetchFn s)
  = {| requestIdCounter := increment (requestIdCounter s) |}.
Proof. reflexivity. Qed.

Lemma callExa_outcome (method : string) (params : option (list (string * json)))
    (fetchFn : Fetch) (s : State) :
  snd (callExa' method params fetchFn s)
  = match exchange JSON_parse JSON_stringify fetchFn
            (snd (nextRequest method params s)) with
    | Return v => Return v
    | Throw error => Throw (rethrow error)
    end.
Proof. reflexivity. Qed.

Lemma rethrow_abort (m : string) :
  rethrow (AbortError m) = Timeout (REQUEST_TIMEOUT_MS / 1000).
Proof. reflexivity. Qed.

Lemma exchange_aborted (fetchFn : Fetch) (request : ExaRequest) :
  aborted JSON_stringify fetchFn request ->
  exists m, exchange JSON_parse JSON_stringify fetchFn request
            = Throw (AbortError m).
Proof.
  intros [m H | m response H Hok Ht]; exists m; unfold exchange; rewrite H.
  - reflexivity.
  - now rewrite Hok, Ht.
Qed.

(** A body that is not one JSON document goes through the decoder, and
    the candidate the decoder returns is parsed. *)
Lemma exchange_event_stream (fetchFn : Fetch) (request : ExaRequest)
    (response : Response) (text c : string) :
  fetchFn EXA_URL (requestInit JSON_stringify request) = Return response ->
  ok response = true ->
  response_text response = Return text ->
  parses JSON_parse text = false ->
  parseSSEResponse JSON_parse text = Return c ->
  exchange JSON_parse JSON_stringify fetchFn request = JSON_parse c.
Proof.
  intros Hf Hok Ht Hp Hc. unfold exchange. rewrite Hf, Hok, Ht. simpl.
  unfold parses in Hp. destruct (JSON_parse text); [discriminate |].
  now rewrite Hc.
Qed.

(** ** Ids *)

Lemma increment_exact (n : Z) : (n < 2 ^ 53)%Z -> increment n = (n + 1)%Z.
Proof.
  intros H. unfold increment.
  destruct (Z.ltb_spec n (2 ^ 53)); [reflexivity | lia].
Qed.

(** At 2^53 the counter stops: this is where a number no longer counts. *)
Lemma increment_saturates : increment (2 ^ 53) = (2 ^ 53)%Z.
Proof. reflexivity. Qed.

(** From a counter [n], [calls] issues the ids [n + 1], [n + 2], ... as
    long as they stay within the integers a number counts exactly. *)
Lemma call_ids_from (calls : list Call) (s : State) :
  (requestIdCounter s + Z.of_nat (List.length calls) <= 2 ^ 53)%Z ->
  call_ids JSON_parse JSON_stringify calls s
  = map (fun k => (requestIdCounter s + Z.of_nat k)%Z)
      (seq 1 (List.length calls)).
Proof.
  revert s; induction calls as [|c calls IH]; intros s Hb; [reflexivity |].
  cbn [call_ids List.length seq map].
  cbn [List.length] in Hb.
  assert (Hi : increment (requestIdCounter s) = (requestIdCounter s + 1)%Z)
    by (apply increment_exact; lia).
  f_equal.
  - unfold envelope. simpl. rewrite Hi. lia.
  - unfold invoke. rewrite callExa_state, IH; cbn [requestIdCounter]; rewrite Hi.
    + rewrite <- (seq_shift (List.length calls) 1), map_map.
      apply map_ext. intros k. lia.
    + lia.
Qed.

Lemma seq_increasing (n start : nat) :
  StronglySorted Z.lt (map Z.of_nat (seq start n)).
Proof.
  revert start; induction n as [|n IH]; intros start; simpl; constructor.
  - apply IH.
  - apply Forall_forall. intros z Hz.
    apply in_map_iff in Hz as (k & <- & Hk). apply in_seq in Hk. lia.
Qed.

Lemma increasing_NoDup (l : list Z) : StronglySorted Z.lt l -> NoDup l.
Proof.
  induction 1 as [|a l Hs IH Ha]; constructor; [| exact IH].
  intros Hin. rewrite Forall_forall in Ha. specialize (Ha a Hin). lia.
Qed.

End Transport.

(** C8. When the exchange of a call is cancelled, [callExa] throws the
    Timeout error for [REQUEST_TIMEOUT_MS / 1000] = 30 seconds: its
    message is [Exa request timed out after 30s], which holds the words
    [timed out] and the number of seconds. *)
Theorem callExa_abort_throws_Timeout :
  forall (JSON_parse : string -> completion json)
         (JSON_stringify : json -> string)
         (method : string) (params : option (list (string * json)))
         (fetchFn : Fetch) (s : State),
    aborted JSON_stringify fetchFn (snd (nextRequest method params s)) ->
    snd (callExa JSON_parse JSON_stringify method params fetchFn s)
    = Throw (Timeout (REQUEST_TIMEOUT_MS / 1000))
    /\ (REQUEST_TIMEOUT_MS / 1000 = 30)%Z
    /\ exn_message (Timeout (REQUEST_TIMEOUT_MS / 1000))
       = "Exa request timed out after 30s"
    /\ includes (exn_message (Timeout (REQUEST_TIMEOUT_MS / 1000))) "timed out"
       = true
    /\ includes (exn_message (Timeout (REQUEST_TIMEOUT_MS / 1000)))
         (Number_toString (REQUEST_TIMEOUT_MS / 1000))
       = true.
Proof.
  intros JSON_parse JSON_stringify method params fetchFn s Ha.
  split; [| repeat split].
  rewrite callExa_outcome.
  destruct (exchange_aborted JSON_parse JSON_stringify _ _ Ha) as [m ->].
  now rewrite rethrow_abort.
Qed.

Lemma callExa_abort_throws_Timeout_witness :
  aborted Json.stringify fetch_aborted
    (snd (nextRequest "tools/call" None initial))
  /\ snd (callExa Json.parse Json.stringify "tools/call" None fetch_aborted
            initial)
     = Throw (Error "Exa request timed out after 30s").
Proof.
  assert (H : aborted Json.stringify fetch_aborted
                (snd (nextRequest "tools/call" None initial)))
    by (apply (aborted_fetch _ _ _ "The operation was aborted"); reflexivity).
  split; [exact H |].
  apply (callExa_abort_throws_Timeout Json.parse Json.stringify
           "tools/call" None fetch_aborted initial H).
Defined.

(** ** Beyond 2^53 calls *)

Section Beyond.

Variable JSON_parse : string -> completion json.
Variable JSON_stringify : json -> string.

Lemma envelope_id (c : Call) (s : State) :
  id (envelope c s) = increment (requestIdCounter s).
Proof. reflexivity. Qed.

Lemma invoke_state (c : Call) (s : State) :
  fst (invoke JSON_parse JSON_stringify c s)
  = {| requestIdCounter := increment (requestIdCounter s) |}.
Proof. reflexivity. Qed.

Lemma call_ids_app (l1 l2 : list Call) (s : State) :
  call_ids JSON_parse JSON_stringify (l1 ++ l2) s
  = call_ids JSON_parse JSON_stringify l1 s
    ++ call_ids JSON_parse JSON_stringify l2
         (Lifetime.state_after JSON_parse JSON_stringify l1 s).
Proof.
  revert s; induction l1 as [|c l1 IH]; intros s; [reflexivity |].
  cbn [app call_ids Lifetime.state_after fold_left].
  now rewrite IH.
Qed.

(** As long as it stays below 2^53 the counter counts the calls. *)
Lemma state_after_counter (calls : list Call) (s : State) :
  (requestIdCounter s + Z.of_nat (List.length calls) <= 2 ^ 53)%Z ->
  requestIdCounter (Lifetime.state_after JSON_parse JSON_stringify calls s)
  = (requestIdCounter s + Z.of_nat (List.length calls))%Z.
Proof.
  revert s; induction calls as [|c calls IH]; intros s Hb.
  - cbn [Lifetime.state_after fold_left List.length]. lia.
  - cbn [List.length] in *.
    cbn [Lifetime.state_after fold_left].
    change (fold_left
              (fun st c0 => fst (invoke JSON_parse JSON_stringify c0 st))
              calls (fst (invoke JSON_parse JSON_stringify c s)))
      with (Lifetime.state_after JSON_parse JSON_stringify calls
              (fst (invoke JSON_parse JSON_stringify c s))).
    rewrite IH; rewrite invoke_state; cbn [requestIdCounter];
      rewrite increment_exact by lia; lia.
Qed.

(** Two calls made when the counter holds the last safe integer take
    the same id. *)
Lemma call_ids_at_the_limit (c : Call) (s : State) :
  requestIdCounter s = (2 ^ 53 - 1)%Z ->
  call_ids JSON_parse JSON_stringify [c; c] s = [2 ^ 53; 2 ^ 53]%Z.
Proof.
  intros Hs. cbn [call_ids].
  rewrite !envelope_id, invoke_state. cbn [requestIdCounter].
  rewrite Hs. reflexivity.
Qed.

Lemma call_ids_repeat_beyond (c : Call) (n : nat) :
  Z.of_nat n = (2 ^ 53 - 1)%Z ->
  ~ NoDup (call_ids JSON_parse JSON_stringify (repeat c (n + 2)) initial).
Proof.
  intros Hn Hnd.
  rewrite repeat_app, call_ids_app in Hnd.
  apply NoDup_app_remove_l in Hnd.
  change (repeat c 2) with [c; c] in Hnd.
  rewrite call_ids_at_the_limit in Hnd.
  - inversion Hnd as [|x l Hin _]. apply Hin. now left.
  - rewrite state_after_counter; rewrite repeat_length; cbn [initial requestIdCounter]; lia.
Qed.

End Beyond.

(** C9, as the specification words it, fails: the counter is a number,
    and at 2^53 its increment gives 2^53 again.  In a process that
    makes 2^53 + 1 calls the last two calls take the same id. *)
Lemma call_ids_repeat_after_2_53_calls :
  ~ NoDup (call_ids Json.parse Json.stringify Lifetime.calls_beyond initial).
Proof.
  unfold Lifetime.calls_beyond.
  apply call_ids_repeat_beyond.
  unfold Lifetime.safe_calls. apply Z2Nat.id. discriminate.
Qed.

(** C9, amended.  In a process, which starts with the counter at 0, the
    calls of any sequence of at most 2^53 calls issue the ids 1, 2, 3,
    ... in the order of the calls: positive, strictly increasing,
    without repetition.  The state a call leaves is the counter alone,
    equal to the id the call issued, whatever its arguments and the
    outcome of its exchange. *)
Theorem call_ids_strictly_increasing :
  forall (JSON_parse : string -> completion json)
         (JSON_stringify : json -> string) (calls : list Call),
    (Z.of_nat (List.length calls) <= 2 ^ 53)%Z ->
    let ids := call_ids JSON_parse JSON_stringify calls initial in
    ids = map Z.of_nat (seq 1 (List.length calls))
    /\ Forall (fun i => (0 < i)%Z) ids
    /\ StronglySorted Z.lt ids
    /\ NoDup ids
    /\ (forall (c : Call) (s : State),
           fst (invoke JSON_parse JSON_stringify c s)
           = {| requestIdCounter := id (envelope c s) |}).
Proof.
  intros JSON_parse JSON_stringify calls Hb ids.
  assert (E : ids = map Z.of_nat (seq 1 (List.length calls))).
  { unfold ids. rewrite call_ids_from by (simpl; lia).
    apply map_ext. intros k. simpl. lia. }
  rewrite E. repeat split.
  - apply Forall_forall. intros z Hz.
    apply in_map_iff in Hz as (k & <- & Hk). apply in_seq in Hk. lia.
  - apply seq_increasing.
  - apply increasing_NoDup, seq_increasing.
Qed.

Lemma call_ids_strictly_increasing_witness :
  (Z.of_nat (List.length three_calls) <= 2 ^ 53)%Z
  /\ call_ids Json.parse Json.stringify three_calls initial = [1; 2; 3]%Z.
Proof.
  split; [vm_compute; discriminate |].
  apply (call_ids_strictly_increasing Json.parse Json.stringify three_calls).
  vm_compute; discriminate.
Defined.

(* ===================================================================== *)
(** * The unit tests of the client, on the embedding *)
(* ===================================================================== *)

Module Tests.

Local Abbreviation callExa' := (callExa Json.parse Json.stringify).

(** [parseSSEResponse]: "extracts data from SSE format". *)
Example extracts_data_from_SSE_format :
  parseSSEResponse Json.parse (unlines single_event) = Return result_json.
Proof. vm_compute; reflexivity. Qed.

(** "throws when no data field" *)
Example throws_when_no_data_field :
  parseSSEResponse Json.parse (unlines ["event: message"; EmptyString])
  = Throw (Error "No data: field found in SSE response").
Proof. vm_compute; reflexivity. Qed.

(** "falls back to concatenation when no line is valid JSON" *)
Example falls_back_to_concatenation :
  parseSSEResponse Json.parse no_json_stream = Return "not-json-anot-json-b".
Proof. vm_compute; reflexivity. Qed.

(** [extractTextContent]: "filters non-text content types" and "extracts
    text from valid response". *)
Example filters_non_text_content_types :
  extractTextContent mixed = Return ("Hello" +++ blank_line +++ "World").
Proof. reflexivity. Qed.

(** "throws on missing content" *)
Example throws_on_missing_content :
  extractTextContent
    {| response_jsonrpc := "2.0"; response_id := 1; error := None;
       result := Some {| content := None; tools := None |} |}
  = Throw NoContent.
Proof. reflexivity. Qed.

(** [callExa]: "sends correct JSON-RPC request and parses JSON response". *)
Example sends_request_and_parses_JSON :
  snd (callExa' "tools/call" search_params fetch_ok initial)
  = Return (JObject
              [ ("jsonrpc", JString "2.0"); ("id", JNumber 1 0);
                ("result",
                  JObject [ ("content",
                             JArray [ JObject [ ("type", JString "text");
                                                ("text", JString "ok") ] ]) ]) ]).
Proof. vm_compute; reflexivity. Qed.

Example request_body :
  body (requestInit Json.stringify
          (snd (nextRequest "tools/call" search_params initial)))
  = dq "{'jsonrpc':'2.0','id':1,'method':'tools/call','params':{'name':'web_search_exa','arguments':{'query':'test'}}}".
Proof. vm_compute; reflexivity. Qed.

(** "falls back to SSE parsing when response is not JSON" *)
Example falls_back_to_SSE_parsing :
  snd (callExa' "tools/call" search_params fetch_sse initial)
  = Return (JObject [ ("jsonrpc", JString "2.0"); ("id", JNumber 1 0);
                      ("result", JObject []) ]).
Proof. vm_compute; reflexivity. Qed.

(** "throws on HTTP error" *)
Example throws_on_HTTP_error :
  snd (callExa' "tools/call" None fetch_bad_request initial)
  = Throw (HttpError 400 "Bad Request").
Proof. vm_compute; reflexivity. Qed.

(** "throws descriptive timeout error on abort", also when the abort
    cuts the body. *)
Example throws_timeout_on_abort :
  snd (callExa' "tools/call" None fetch_aborted initial) = Throw (Timeout 30)
  /\ snd (callExa' "tools/call" None fetch_aborted_body initial)
     = Throw (Timeout 30).
Proof. split; vm_compute; reflexivity. Qed.

(** A failed call uses up its id. *)
Example outcomes_of_three_calls :
  map returns (outcomes Json.parse Json.stringify three_calls initial)
  = [true; false; false].
Proof. vm_compute; reflexivity. Qed.

End Tests.

(* ===================================================================== *)
(** * Further properties of the decoder and of the transport *)
(* ===================================================================== *)

Import ExaMcpTools Index ToolSpec ToolSamples.

(** ** Lines *)

Lemma split_joined (a b : string) (sep : ascii) :
  split (a +++ String sep b) sep = split a sep ++ split b sep.
Proof.
  induction a as [|c a IH]; simpl.
  - now rewrite Ascii.eqb_refl.
  - destruct (Ascii.eqb c sep); [now rewrite IH |].
    rewrite IH. destruct (split a sep) as [|p ps] eqn:E;
      [now apply split_not_nil in E | reflexivity].
Qed.

Lemma occurs_append (c : ascii) (a b : string) :
  occurs c (a +++ b) = occurs c a || occurs c b.
Proof.
  induction a as [|d a IH]; simpl; [reflexivity |].
  now rewrite IH, orb_assoc.
Qed.

Lemma occurs_substring (c : ascii) (s : string) (n : nat) :
  occurs c s = false -> occurs c (substring s n) = false.
Proof.
  revert s; induction n as [|n IH]; intros s H; [exact H |].
  destruct s as [|d s]; [reflexivity |].
  simpl in *. apply orb_false_iff in H as [_ H]. now apply IH.
Qed.

Lemma is_line_concatenation (l : list string) :
  forallb is_line l = true -> is_line (concatenation l) = true.
Proof.
  unfold is_line. induction l as [|x l IH]; simpl; intros H; [reflexivity |].
  apply andb_true_iff in H as [Hx Hl].
  rewrite occurs_append, negb_orb, Hx. now apply IH.
Qed.

Lemma dataLines_lines (text : string) : forallb is_line (dataLines text) = true.
Proof.
  rewrite dataLines_filter. apply forallb_forall. intros c Hc.
  apply in_map_iff in Hc as (line & <- & Hin).
  apply filter_In in Hin as [Hin _].
  pose proof (split_lines text) as Hl. rewrite forallb_forall in Hl.
  specialize (Hl line Hin). unfold is_line, payload in *.
  apply negb_true_iff in Hl. apply negb_true_iff. now apply occurs_substring.
Qed.

Lemma scan_In (JSON_parse : string -> completion json) (l : list string)
    (n : nat) (c : string) :
  scan JSON_parse l n = Some c -> In c l.
Proof.
  induction n as [|i IH]; simpl; [discriminate |].
  destruct (nth_error l i) as [line|] eqn:E; [| exact IH].
  destruct (JSON_parse line); [| exact IH].
  intros H. inversion H; subst. now apply nth_error_In in E.
Qed.

(** X1. The candidates of two bodies put one after the other with a
    line feed between them are the candidates of the first followed by
    the candidates of the second. *)
Theorem dataLines_of_joined_bodies :
  forall a b : string,
    dataLines (a +++ String newline b) = dataLines a ++ dataLines b.
Proof.
  intros a b. rewrite !dataLines_filter, split_joined, filter_app, map_app.
  reflexivity.
Qed.

(** X2. A string [parseSSEResponse] returns holds no line feed: it is
    one candidate, or candidates put end to end. *)
Theorem parseSSEResponse_returns_one_line :
  forall (JSON_parse : string -> completion json) (text s : string),
    parseSSEResponse JSON_parse text = Return s ->
    is_line s = true.
Proof.
  intros JSON_parse text s H.
  destruct (dataLines text) as [|d ds] eqn:E.
  - rewrite (parseSSEResponse_empty JSON_parse text E) in H. discriminate.
  - rewrite parseSSEResponse_nonempty in H by (rewrite E; discriminate).
    pose proof (dataLines_lines text) as Hl.
    destruct (scan JSON_parse (dataLines text) (List.length (dataLines text)))
      as [c|] eqn:Es; inversion H; subst.
    + apply scan_In in Es. rewrite forallb_forall in Hl. now apply Hl.
    + rewrite join_empty. now apply is_line_concatenation.
Qed.

Lemma parseSSEResponse_returns_one_line_witness :
  parseSSEResponse Json.parse no_json_stream = Return "not-json-anot-json-b"
  /\ is_line "not-json-anot-json-b" = true.
Proof.
  assert (H : parseSSEResponse Json.parse no_json_stream
              = Return "not-json-anot-json-b") by (vm_compute; reflexivity).
  split; [exact H |].
  exact (parseSSEResponse_returns_one_line Json.parse no_json_stream _ H).
Defined.

(** ** What [callExa] does with a response *)

Lemma callExa_received (JSON_parse : string -> completion json)
    (JSON_stringify : json -> string) (method : string)
    (params : option (list (string * json))) (fetchFn : Fetch) (s : State)
    (text : string) :
  received JSON_stringify fetchFn (snd (nextRequest method params s)) text ->
  snd (callExa JSON_parse JSON_stringify method params fetchFn s)
  = match match JSON_parse text with
          | Return v => Return v
          | Throw _ =>
              match parseSSEResponse JSON_parse text with
              | Throw e => Throw e
              | Return jsonData => JSON_parse jsonData
              end
          end with
    | Return v => Return v
    | Throw error => Throw (rethrow error)
    end.
Proof.
  intros (response & Hf & Hok & Ht).
  rewrite callExa_outcome. unfold exchange. now rewrite Hf, Hok, Ht.
Qed.

Lemma parseSSEResponse_fallback (JSON_parse : string -> completion json)
    (text : string) :
  dataLines text <> [] ->
  forallb (fun x => negb (parses JSON_parse x)) (dataLines text) = true ->
  parseSSEResponse JSON_parse text = Return (concatenation (dataLines text)).
Proof.
  intros Hne Hall. rewrite parseSSEResponse_nonempty by assumption.
  rewrite (scan_none JSON_parse _ _ Hall). now rewrite join_empty.
Qed.

Lemma rethrow_other (e : exn) :
  (forall m, e <> AbortError m) -> rethrow e = e.
Proof.
  intros H. destruct e as [m | m | m | m name]; try reflexivity.
  simpl. destruct (String.eqb_spec name "AbortError") as [-> | Hn];
    [| reflexivity].
  now contradiction (H m).
Qed.

Lemma rethrow_not_abort (e : exn) (m : string) : rethrow e <> AbortError m.
Proof.
  destruct e as [m' | m' | m' | m' name]; try discriminate.
  simpl. destruct (String.eqb_spec name "AbortError") as [-> | Hn];
    [discriminate |].
  unfold AbortError. intros H. inversion H. contradiction.
Qed.

(** X3. A response whose status is not a success makes [callExa] throw
    the HttpError error, whose message holds the status and the reason
    phrase; the body is not read, whatever reading it would give. *)
Theorem callExa_http_error :
  forall (JSON_parse : string -> completion json)
         (JSON_stringify : json -> string)
         (method : string) (params : option (list (string * json)))
         (fetchFn : Fetch) (s : State) (response : Response),
    fetchFn EXA_URL
      (requestInit JSON_stringify (snd (nextRequest method params s)))
    = Return response ->
    ok response = false ->
    snd (callExa JSON_parse JSON_stringify method params fetchFn s)
    = Throw (HttpError (status response) (statusText response))
    /\ includes (exn_message (HttpError (status response) (statusText response)))
         (Number_toString (status response)) = true
    /\ includes (exn_message (HttpError (status response) (statusText response)))
         (statusText response) = true.
Proof.
  intros JSON_parse JSON_stringify method params fetchFn s response Hf Hok.
  split; [| split].
  - rewrite callExa_outcome. unfold exchange. now rewrite Hf, Hok.
  - apply includes_append.
  - unfold HttpError, exn_message.
    pose proof (includes_append
                  ("HTTP error: " +++ Number_toString (status response) +++ " ")
                  (statusText response) EmptyString) as H.
    rewrite append_empty_r, !append_assoc in H. exact H.
Qed.

Lemma callExa_http_error_witness :
  fetch_bad_request EXA_URL
    (requestInit Json.stringify (snd (nextRequest "tools/call" None initial)))
  = Return {| ok := false; status := 400; statusText := "Bad Request";
              response_text := Return "Bad Request" |}
  /\ snd (callExa Json.parse Json.stringify "tools/call" None
            fetch_bad_request initial)
     = Throw (Error "HTTP error: 400 Bad Request").
Proof.
  split; [reflexivity |].
  apply (callExa_http_error Json.parse Json.stringify "tools/call" None
           fetch_bad_request initial
           {| ok := false; status := 400; statusText := "Bad Request";
              response_text := Return "Bad Request" |});
    reflexivity.
Defined.



(** X5. When the body is not one JSON document and no candidate parses,
    [callExa] parses the candidates put end to end: a document cut
    across several [data: ] lines is returned whole, and otherwise the
    [SyntaxError] of [JSON.parse] is thrown as it is. *)
Theorem callExa_parses_concatenation :
  forall (JSON_parse : string -> completion json)
         (JSON_stringify : json -> string)
         (method : string) (params : option (list (string * json)))
         (fetchFn : Fetch) (s : State) (text : string),
    received JSON_stringify fetchFn (snd (nextRequest method params s)) text ->
    parses JSON_parse text = false ->
    dataLines text <> [] ->
    forallb (fun x => negb (parses JSON_parse x)) (dataLines text) = true ->
    (forall v,
        JSON_parse (concatenation (dataLines text)) = Return v ->
        snd (callExa JSON_parse JSON_stringify method params fetchFn s)
        = Return v)
    /\ (forall m,
           JSON_parse (concatenation (dataLines text)) = Throw (SyntaxError m) ->
           snd (callExa JSON_parse JSON_stringify method params fetchFn s)
           = Throw (SyntaxError m)).
Proof.
  intros JSON_parse JSON_stringify method params fetchFn s text Hr Hp Hne Hall.
  rewrite (callExa_received _ _ _ _ _ _ _ Hr).
  unfold parses in Hp. destruct (JSON_parse text); [discriminate |].
  rewrite (parseSSEResponse_fallback JSON_parse text Hne Hall).
  split; [intros v Hv | intros m Hm].
  - now rewrite Hv.
  - now rewrite Hm.
Qed.

Lemma callExa_parses_concatenation_witness :
  received Json.stringify fetch_split_document
    (snd (nextRequest "tools/call" None initial)) split_document
  /\ parses Json.parse split_document = false
  /\ dataLines split_document <> []
  /\ forallb (fun x => negb (parses Json.parse x)) (dataLines split_document)
     = true
  /\ snd (callExa Json.parse Json.stringify "tools/call" None
            fetch_split_document initial)
     = Return (JObject [ ("jsonrpc", JString "2.0"); ("id", JNumber 1 0);
                         ("result", JObject []) ]).
Proof.
  assert (Hr : received Json.stringify fetch_split_document
                 (snd (nextRequest "tools/call" None initial)) split_document)
    by (eexists; repeat split; reflexivity).
  split; [exact Hr |].
  split; [vm_compute; reflexivity |].
  split; [vm_compute; discriminate |].
  split; [vm_compute; reflexivity |].
  apply (proj1 (callExa_parses_concatenation Json.parse Json.stringify
                  "tools/call" None fetch_split_document initial split_document
                  Hr ltac:(vm_compute; reflexivity)
                  ltac:(vm_compute; discriminate)
                  ltac:(vm_compute; reflexivity))).
  vm_compute; reflexivity.
Defined.

(** X6. A body that is one JSON document is returned as that
    document, whatever [data: ] lines its text holds: the decoder of
    event streams is not consulted. *)
Theorem callExa_returns_strict_parse :
  forall (JSON_parse : string -> completion json)
         (JSON_stringify : json -> string)
         (method : string) (params : option (list (string * json)))
         (fetchFn : Fetch) (s : State) (text : string) (v : json),
    received JSON_stringify fetchFn (snd (nextRequest method params s)) text ->
    JSON_parse text = Return v ->
    snd (callExa JSON_parse JSON_stringify method params fetchFn s) = Return v.
Proof.
  intros JSON_parse JSON_stringify method params fetchFn s text v Hr Hv.
  now rewrite (callExa_received _ _ _ _ _ _ _ Hr), Hv.
Qed.

Lemma callExa_returns_strict_parse_witness :
  received Json.stringify fetch_ok
    (snd (nextRequest "tools/call" search_params initial))
    (dq "{'jsonrpc':'2.0','id':1,'result':{'content':[{'type':'text','text':'ok'}]}}")
  /\ Json.parse
       (dq "{'jsonrpc':'2.0','id':1,'result':{'content':[{'type':'text','text':'ok'}]}}")
     = Return ok_document
  /\ snd (callExa Json.parse Json.stringify "tools/call" search_params
            fetch_ok initial)
     = Return ok_document.
Proof.
  assert (Hr : received Json.stringify fetch_ok
                 (snd (nextRequest "tools/call" search_params initial))
                 (dq "{'jsonrpc':'2.0','id':1,'result':{'content':[{'type':'text','text':'ok'}]}}"))
    by (eexists; repeat split; reflexivity).
  assert (Hv : Json.parse
                 (dq "{'jsonrpc':'2.0','id':1,'result':{'content':[{'type':'text','text':'ok'}]}}")
               = Return ok_document) by (vm_compute; reflexivity).
  split; [exact Hr | split; [exact Hv |]].
  exact (callExa_returns_strict_parse Json.parse Json.stringify "tools/call"
           search_params fetch_ok initial _ _ Hr Hv).
Defined.

(** X7. When the body is not one JSON document and has no [data: ]
    line, [callExa] throws the NoDataField error of the decoder, as it
    is. *)
Theorem callExa_no_data_field :
  forall (JSON_parse : string -> completion json)
         (JSON_stringify : json -> string)
         (method : string) (params : option (list (string * json)))
         (fetchFn : Fetch) (s : State) (text : string),
    received JSON_stringify fetchFn (snd (nextRequest method params s)) text ->
    parses JSON_parse text = false ->
    dataLines text = [] ->
    snd (callExa JSON_parse JSON_stringify method params fetchFn s)
    = Throw NoDataField.
Proof.
  intros JSON_parse JSON_stringify method params fetchFn s text Hr Hp Hd.
  rewrite (callExa_received _ _ _ _ _ _ _ Hr).
  unfold parses in Hp. destruct (JSON_parse text); [discriminate |].
  now rewrite (parseSSEResponse_empty JSON_parse text Hd).
Qed.

Lemma callExa_no_data_field_witness :
  received Json.stringify fetch_no_data
    (snd (nextRequest "tools/call" None initial)) "event: ping"
  /\ parses Json.parse "event: ping" = false
  /\ dataLines "event: ping" = []
  /\ snd (callExa Json.parse Json.stringify "tools/call" None
            fetch_no_data initial)
     = Throw (Error "No data: field found in SSE response").
Proof.
  assert (Hr : received Json.stringify fetch_no_data
                 (snd (nextRequest "tools/call" None initial)) "event: ping")
    by (eexists; repeat split; reflexivity).
  split; [exact Hr | split; [vm_compute; reflexivity | split; [reflexivity |]]].
  apply (callExa_no_data_field Json.parse Json.stringify "tools/call" None
           fetch_no_data initial "event: ping" Hr); vm_compute; reflexivity.
Defined.

(** X8. A rejection of the exchange that is not the abort error, a
    network failure for one, is thrown by [callExa] as it is. *)
Theorem callExa_rethrows_other_rejections :
  forall (JSON_parse : string -> completion json)
         (JSON_stringify : json -> string)
         (method : string) (params : option (list (string * json)))
         (fetchFn : Fetch) (s : State) (e : exn),
    rejected JSON_stringify fetchFn (snd (nextRequest method params s)) e ->
    (forall m, e <> AbortError m) ->
    snd (callExa JSON_parse JSON_stringify method params fetchFn s) = Throw e.
Proof.
  intros JSON_parse JSON_stringify method params fetchFn s e Hr He.
  rewrite callExa_outcome. unfold exchange.
  destruct Hr as [Hf | (response & Hf & Hok & Ht)]; rewrite Hf.
  - now rewrite rethrow_other.
  - rewrite Hok, Ht. simpl. now rewrite rethrow_other.
Qed.

Lemma callExa_rethrows_other_rejections_witness :
  rejected Json.stringify fetch_failed
    (snd (nextRequest "tools/call" None initial)) (TypeError "fetch failed")
  /\ (forall m, TypeError "fetch failed" <> AbortError m)
  /\ snd (callExa Json.parse Json.stringify "tools/call" None
            fetch_failed initial)
     = Throw (TypeError "fetch failed").
Proof.
  assert (Hr : rejected Json.stringify fetch_failed
                 (snd (nextRequest "tools/call" None initial))
                 (TypeError "fetch failed")) by (left; reflexivity).
  assert (He : forall m, TypeError "fetch failed" <> AbortError m)
    by (intros m; discriminate).
  split; [exact Hr | split; [exact He |]].
  exact (callExa_rethrows_other_rejections Json.parse Json.stringify
           "tools/call" None fetch_failed initial _ Hr He).
Defined.

(** X9. [callExa] never throws the abort error itself: whatever the
    exchange and the parser do, what comes out is a document or an
    error other than the [DOMException] named [AbortError]. *)
Theorem callExa_never_throws_AbortError :
  forall (JSON_parse : string -> completion json)
         (JSON_stringify : json -> string)
         (method : string) (params : option (list (string * json)))
         (fetchFn : Fetch) (s : State) (m : string),
    snd (callExa JSON_parse JSON_stringify method params fetchFn s)
    <> Throw (AbortError m).
Proof.
  intros JSON_parse JSON_stringify method params fetchFn s m.
  rewrite callExa_outcome.
  destruct (exchange JSON_parse JSON_stringify fetchFn
              (snd (nextRequest method params s))) as [v | e];
    [discriminate |].
  intros H. inversion H as [H']. now apply rethrow_not_abort in H'.
Qed.

(** ** The errors of [extractTextContent] *)

(** X10. [extractTextContent] throws nothing but the NoContent error
    and the ApiError error, and the two are told apart by their
    messages: it throws an ApiError exactly when the envelope has an
    [error]. *)
Theorem extractTextContent_errors :
  forall response : ExaResponse,
    (forall e, extractTextContent response = Throw e ->
               e = NoContent
               \/ exists err, error response = Some err
                              /\ e = ApiError (code err) (message err))
    /\ ((exists c m, extractTextContent response = Throw (ApiError c m))
        <-> error response <> None).
Proof.
  intros response. split; [| split].
  - intros e H. unfold extractTextContent in H.
    destruct (error response) as [err|] eqn:He.
    + right. exists err. split; [reflexivity | now inversion H].
    + left. destruct (result response) as [r|]; [| now inversion H].
      destruct (content r); [discriminate | now inversion H].
  - intros (c & m & H). unfold extractTextContent in H.
    destruct (error response) as [err|]; [discriminate |].
    exfalso. destruct (result response) as [r|].
    + destruct (content r); [discriminate | inversion H].
    + inversion H.
  - intros Hne. destruct (error response) as [err|] eqn:He; [| contradiction].
    exists (code err), (message err). now apply extractTextContent_error.
Qed.

(* ===================================================================== *)
(** * Properties of the tool functions *)
(* ===================================================================== *)

Section ToolFunctions.

Variable JSON_parse : string -> completion json.
Variable JSON_stringify : json -> string.

Lemma toolsCall_state (name : string) (arguments : list (string * json))
    (fetchFn : Fetch) (s : State) :
  fst (toolsCall JSON_parse JSON_stringify name arguments fetchFn s)
  = {| requestIdCounter := increment (requestIdCounter s) |}.
Proof. reflexivity. Qed.

Lemma toolsCall_outcome (name : string) (arguments : list (string * json))
    (fetchFn : Fetch) (s : State) :
  snd (toolsCall JSON_parse JSON_stringify name arguments fetchFn s)
  = match snd (callExa JSON_parse JSON_stringify "tools/call"
                 (toolParams name arguments) fetchFn s) with
    | Throw e => Some (Throw e)
    | Return v => option_map extractTextContent (asExaResponse v)
    end.
Proof. reflexivity. Qed.

(** The remote tool and the arguments of each tool function. *)
Lemma tool_functions_calls (fn : ToolFunction) :
  In fn (tool_functions JSON_parse JSON_stringify) ->
  exists name arguments,
    calls JSON_parse JSON_stringify fn name arguments
    /\ In name allowed_tools
    /\ (arguments = (fun params => params)
        \/ exists category, arguments = publishedArgs category).
Proof.
  intros [<- | [<- | [<- | [<- | [<- | [<- | []]]]]]].
  - exists "web_search_exa", (fun params => params).
    split; [intros params fetchFn s; reflexivity | split; [vm_compute; tauto | now left]].
  - exists "get_code_context_exa", (fun params => params).
    split; [intros params fetchFn s; reflexivity | split; [vm_compute; tauto | now left]].
  - exists "company_research_exa", (fun params => params).
    split; [intros params fetchFn s; reflexivity | split; [vm_compute; tauto | now left]].
  - exists "web_search_advanced_exa", (publishedArgs "tweet").
    split; [intros params fetchFn s; reflexivity | split; [vm_compute; tauto | right; eauto]].
  - exists "people_search_exa", (fun params => params).
    split; [intros params fetchFn s; reflexivity | split; [vm_compute; tauto | now left]].
  - exists "web_search_advanced_exa", (publishedArgs "financial report").
    split; [intros params fetchFn s; reflexivity | split; [vm_compute; tauto | right; eauto]].
Qed.

End ToolFunctions.

(** ** The arguments of the searches by date *)

Lemma property_member_other (key k : string) (v : option json) :
  k <> key -> property (member k v) key = None.
Proof.
  intros Hk. destruct v as [x|]; simpl; [| reflexivity].
  now apply String.eqb_neq in Hk as ->.
Qed.

Lemma property_member_same (key : string) (v : option json) :
  property (member key v) key = v.
Proof. destruct v as [x|]; simpl; [now rewrite String.eqb_refl | reflexivity]. Qed.

Lemma property_app (l1 l2 : list (string * json)) (key : string) :
  property (l1 ++ l2) key
  = match property l2 key with
    | Some v => Some v
    | None => property l1 key
    end.
Proof.
  induction l1 as [|[k v] l1 IH]; simpl.
  - now destruct (property l2 key).
  - rewrite IH. destruct (property l2 key); [reflexivity |].
    reflexivity.
Qed.

Lemma property_cons_other (k key : string) (v : json)
    (rest : list (string * json)) :
  k <> key -> property ((k, v) :: rest) key = property rest key.
Proof.
  intros Hk. simpl. apply String.eqb_neq in Hk as ->.
  now destruct (property rest key).
Qed.

Lemma publishedArgs_property (category : string) (params : list (string * json))
    (key : string) :
  property (publishedArgs category params) key
  = if String.eqb key "endPublishedDate" then property params "endPublishedDate"
    else if String.eqb key "startPublishedDate"
         then property params "startPublishedDate"
    else if String.eqb key "numResults"
         then Some (nullish (property params "numResults") (JNumber 10 0))
    else if String.eqb key "category" then Some (JString category)
    else if String.eqb key "query" then property params "query"
    else None.
Proof.
  unfold publishedArgs, member, nullish.
  destruct (property params "query") as [q|],
           (property params "startPublishedDate") as [a|],
           (property params "endPublishedDate") as [b|];
    cbn [app property];
    repeat match goal with
      | |- context [String.eqb ?k key] =>
          destruct (String.eqb_spec k key);
          [subst key; reflexivity |]
      end;
    repeat match goal with
      | |- context [String.eqb key ?k] =>
          destruct (String.eqb_spec key k); [congruence |]
      end;
    reflexivity.
Qed.

(** X11. Each of the six tool functions calls a remote tool that the
    URL of the endpoint lists, and each remote tool the URL lists is
    called by one of them. *)
Theorem tool_functions_call_the_listed_tools :
  forall (JSON_parse : string -> completion json)
         (JSON_stringify : json -> string),
    (forall fn, In fn (tool_functions JSON_parse JSON_stringify) ->
                exists name arguments,
                  calls JSON_parse JSON_stringify fn name arguments
                  /\ In name allowed_tools)
    /\ (forall name, In name allowed_tools ->
                     exists fn arguments,
                       In fn (tool_functions JSON_parse JSON_stringify)
                       /\ calls JSON_parse JSON_stringify fn name arguments).
Proof.
  intros JSON_parse JSON_stringify. split.
  - intros fn Hfn.
    destruct (tool_functions_calls JSON_parse JSON_stringify fn Hfn)
      as (name & arguments & Hc & Hn & _).
    now exists name, arguments.
  - intros name Hn. vm_compute in Hn.
    destruct Hn as [<- | [<- | [<- | [<- | [<- | []]]]]].
    + exists (webSearch JSON_parse JSON_stringify), (fun params => params).
      split; [simpl; tauto | intros params fetchFn s; reflexivity].
    + exists (twitterSearch JSON_parse JSON_stringify), (publishedArgs "tweet").
      split; [simpl; tauto | intros params fetchFn s; reflexivity].
    + exists (codeSearch JSON_parse JSON_stringify), (fun params => params).
      split; [simpl; tauto | intros params fetchFn s; reflexivity].
    + exists (companyResearch JSON_parse JSON_stringify), (fun params => params).
      split; [simpl; tauto | intros params fetchFn s; reflexivity].
    + exists (peopleSearch JSON_parse JSON_stringify), (fun params => params).
      split; [simpl; tauto | intros params fetchFn s; reflexivity].
Qed.

(** X12. [twitterSearch] and [financialSearch] call the advanced search
    with a category of their own, ["tweet"] and ["financial report"],
    which the parameters cannot change, and with [numResults] set to 10
    when the parameters have none or have [null]; a [numResults] that is
    given, 0 included, is sent as it is. *)
Theorem published_searches_category_and_numResults :
  forall (JSON_parse : string -> completion json)
         (JSON_stringify : json -> string),
    calls JSON_parse JSON_stringify (twitterSearch JSON_parse JSON_stringify)
      "web_search_advanced_exa" (publishedArgs "tweet")
    /\ calls JSON_parse JSON_stringify
         (financialSearch JSON_parse JSON_stringify)
         "web_search_advanced_exa" (publishedArgs "financial report")
    /\ forall (category : string) (params : list (string * json)),
        property (publishedArgs category params) "category"
        = Some (JString category)
        /\ (property params "numResults" = None
            \/ property params "numResults" = Some JNull ->
            property (publishedArgs category params) "numResults"
            = Some (JNumber 10 0))
        /\ (forall v, property params "numResults" = Some v -> v <> JNull ->
                      property (publishedArgs category params) "numResults"
                      = Some v).
Proof.
  intros JSON_parse JSON_stringify.
  split; [intros params fetchFn s; reflexivity |].
  split; [intros params fetchFn s; reflexivity |].
  intros category params. rewrite !publishedArgs_property. simpl.
  split; [reflexivity | split].
  - intros [-> | ->]; reflexivity.
  - intros v -> Hv. destruct v; try reflexivity. contradiction.
Qed.

(** X13. Of the parameters of a search by date, the query and the two
    dates are sent as they are given (a date that is not given is not
    sent), and nothing else is sent: a key other than [query],
    [category], [numResults], [startPublishedDate] and
    [endPublishedDate] never reaches the remote tool. *)
Theorem published_searches_forward_known_fields :
  forall (category : string) (params : list (string * json)) (key : string),
    (In key ["query"; "startPublishedDate"; "endPublishedDate"] ->
     property (publishedArgs category params) key = property params key)
    /\ (~ In key ["query"; "category"; "numResults";
                  "startPublishedDate"; "endPublishedDate"] ->
        property (publishedArgs category params) key = None).
Proof.
  intros category params key. rewrite publishedArgs_property. split.
  - intros [<- | [<- | [<- | []]]]; reflexivity.
  - intros Hn. simpl in Hn.
    destruct (String.eqb_spec key "endPublishedDate");
      [exfalso; apply Hn; subst; tauto |].
    destruct (String.eqb_spec key "startPublishedDate");
      [exfalso; apply Hn; subst; tauto |].
    destruct (String.eqb_spec key "numResults");
      [exfalso; apply Hn; subst; tauto |].
    destruct (String.eqb_spec key "category");
      [exfalso; apply Hn; subst; tauto |].
    destruct (String.eqb_spec key "query");
      [exfalso; apply Hn; subst; tauto | reflexivity].
Qed.

(* ===================================================================== *)
(** * Properties of the registered tools *)
(* ===================================================================== *)

Lemma wrapExecute_outcome (fn : ToolFunction) (_id : string)
    (params : list (string * json)) (fetchFn : Fetch) (s : State) :
  snd (wrapExecute fn _id params fetchFn s)
  = option_map (fun c => wrapped (settle c)) (snd (fn params fetchFn s)).
Proof. unfold wrapExecute. now destruct (fn params fetchFn s). Qed.

Lemma wrapExecute_state (fn : ToolFunction) (_id : string)
    (params : list (string * json)) (fetchFn : Fetch) (s : State) :
  fst (wrapExecute fn _id params fetchFn s) = fst (fn params fetchFn s).
Proof. unfold wrapExecute. now destruct (fn params fetchFn s). Qed.

Lemma wrapped_throw (e : exn) :
  wrapped (settle (Throw e)) = text_result ("Error: " +++ exn_message e) true.
Proof. reflexivity. Qed.

Lemma wrapped_return (t : string) :
  wrapped (settle (Return t)) = text_result t false.
Proof. reflexivity. Qed.

Lemma wrapExecute_calls (JSON_parse : string -> completion json)
    (JSON_stringify : json -> string) (fn : ToolFunction) (name : string)
    (arguments : list (string * json) -> list (string * json))
    (_id : string) (params : list (string * json)) (fetchFn : Fetch)
    (s : State) :
  calls JSON_parse JSON_stringify fn name arguments ->
  snd (wrapExecute fn _id params fetchFn s)
  = option_map (fun c => wrapped (settle c))
      match snd (callExa JSON_parse JSON_stringify "tools/call"
                   (toolParams name (arguments params)) fetchFn s) with
      | Throw e => Some (Throw e)
      | Return v => option_map extractTextContent (asExaResponse v)
      end.
Proof.
  intros Hc. now rewrite wrapExecute_outcome, Hc, toolsCall_outcome.
Qed.

(** X15. What [callExa] throws for the request of a tool function
    (time-out, HTTP error, missing data field, syntax error) is not
    thrown by the wrapped function: it resolves to one text item,
    [Error: ] followed by the message, with [isError] set. *)
Theorem wrapExecute_reports_callExa_errors :
  forall (JSON_parse : string -> completion json)
         (JSON_stringify : json -> string)
         (fn : ToolFunction) (name : string)
         (arguments : list (string * json) -> list (string * json))
         (_id : string) (params : list (string * json))
         (fetchFn : Fetch) (s : State) (e : exn),
    calls JSON_parse JSON_stringify fn name arguments ->
    snd (callExa JSON_parse JSON_stringify "tools/call"
           (toolParams name (arguments params)) fetchFn s) = Throw e ->
    snd (wrapExecute fn _id params fetchFn s)
    = Some (text_result ("Error: " +++ exn_message e) true).
Proof.
  intros JSON_parse JSON_stringify fn name arguments _id params fetchFn s e Hc He.
  now rewrite (wrapExecute_calls _ _ _ _ _ _ _ _ _ Hc), He.
Qed.

Lemma wrapExecute_reports_callExa_errors_witness :
  calls Json.parse Json.stringify (twitterSearch Json.parse Json.stringify)
    "web_search_advanced_exa" (publishedArgs "tweet")
  /\ snd (callExa Json.parse Json.stringify "tools/call"
            (toolParams "web_search_advanced_exa"
               (publishedArgs "tweet" tweet_params))
            fetch_aborted initial)
     = Throw (Timeout 30)
  /\ snd (wrapExecute (twitterSearch Json.parse Json.stringify)
            "call-1" tweet_params fetch_aborted initial)
     = Some (text_result "Error: Exa request timed out after 30s" true).
Proof.
  assert (Hc : calls Json.parse Json.stringify
                 (twitterSearch Json.parse Json.stringify)
                 "web_search_advanced_exa" (publishedArgs "tweet"))
    by (intros params fetchFn s; reflexivity).
  split; [exact Hc | split; [reflexivity |]].
  apply (wrapExecute_reports_callExa_errors Json.parse Json.stringify
           _ _ _ "call-1" tweet_params fetch_aborted initial (Timeout 30) Hc).
  reflexivity.
Defined.

(** X16. When [callExa] returns a document of the declared shape that
    carries an [error], or one without [content], the wrapped function
    resolves to one text item with [isError] set: [Error: Exa API
    error: ] with the code and the message, or [Error: No content in
    response]. *)
Theorem wrapExecute_reports_envelope_errors :
  forall (JSON_parse : string -> completion json)
         (JSON_stringify : json -> string)
         (fn : ToolFunction) (name : string)
         (arguments : list (string * json) -> list (string * json))
         (_id : string) (params : list (string * json))
         (fetchFn : Fetch) (s : State) (v : json) (r : ExaResponse),
    calls JSON_parse JSON_stringify fn name arguments ->
    snd (callExa JSON_parse JSON_stringify "tools/call"
           (toolParams name (arguments params)) fetchFn s) = Return v ->
    asExaResponse v = Some r ->
    (forall err, error r = Some err ->
       snd (wrapExecute fn _id params fetchFn s)
       = Some (text_result
                 ("Error: Exa API error: " +++ Number_toString (code err)
                    +++ " - " +++ message err) true))
    /\ (error r = None ->
        (result r = None
         \/ exists res, result r = Some res /\ content res = None) ->
        snd (wrapExecute fn _id params fetchFn s)
        = Some (text_result "Error: No content in response" true)).
Proof.
  intros JSON_parse JSON_stringify fn name arguments _id params fetchFn s v r
         Hc Hv Hr.
  rewrite (wrapExecute_calls _ _ _ _ _ _ _ _ _ Hc), Hv, Hr. simpl option_map.
  unfold extractTextContent. split.
  - intros err He. now rewrite He.
  - intros He [Hn | (res & Hres & Hcn)]; rewrite He.
    + now rewrite Hn.
    + now rewrite Hres, Hcn.
Qed.

Lemma wrapExecute_reports_envelope_errors_witness :
  calls Json.parse Json.stringify (webSearch Json.parse Json.stringify)
    "web_search_exa" (fun params => params)
  /\ snd (callExa Json.parse Json.stringify "tools/call"
            (toolParams "web_search_exa" query_only) fetch_api_error initial)
     = Return (JObject [ ("jsonrpc", JString "2.0"); ("id", JNumber 1 0);
                         ("error", JObject [ ("code", JNumber 400 0);
                                             ("message", JString "Bad request") ]) ])
  /\ asExaResponse
       (JObject [ ("jsonrpc", JString "2.0"); ("id", JNumber 1 0);
                  ("error", JObject [ ("code", JNumber 400 0);
                                      ("message", JString "Bad request") ]) ])
     = Some bad_request
  /\ snd (wrapExecute (webSearch Json.parse Json.stringify)
            "call-1" query_only fetch_api_error initial)
     = Some (text_result "Error: Exa API error: 400 - Bad request" true).
Proof.
  assert (Hc : calls Json.parse Json.stringify
                 (webSearch Json.parse Json.stringify)
                 "web_search_exa" (fun params => params))
    by (intros params fetchFn s; reflexivity).
  split; [exact Hc |].
  split; [vm_compute; reflexivity |].
  split; [vm_compute; reflexivity |].
  apply (proj1 (wrapExecute_reports_envelope_errors Json.parse Json.stringify
                  _ _ _ "call-1" query_only fetch_api_error initial _
                  bad_request Hc
                  ltac:(vm_compute; reflexivity)
                  ltac:(vm_compute; reflexivity))
           bad_request_error).
  reflexivity.
Defined.

(** X17. When [callExa] returns a Success document of the declared
    shape with a [content], the wrapped function resolves to one text
    item, the text fields of the text items joined by blank lines, and
    [isError] is not set. *)
Theorem wrapExecute_returns_text :
  forall (JSON_parse : string -> completion json)
         (JSON_stringify : json -> string)
         (fn : ToolFunction) (name : string)
         (arguments : list (string * json) -> list (string * json))
         (_id : string) (params : list (string * json))
         (fetchFn : Fetch) (s : State) (v : json) (r : ExaResponse)
         (res : ExaResult) (items : list ContentItem),
    calls JSON_parse JSON_stringify fn name arguments ->
    snd (callExa JSON_parse JSON_stringify "tools/call"
           (toolParams name (arguments params)) fetchFn s) = Return v ->
    asExaResponse v = Some r ->
    error r = None ->
    result r = Some res ->
    content res = Some items ->
    snd (wrapExecute fn _id params fetchFn s)
    = Some (text_result (String.concat blank_line (text_fields items)) false).
Proof.
  intros JSON_parse JSON_stringify fn name arguments _id params fetchFn s v r
         res items Hc Hv Hr He Hres Hcn.
  rewrite (wrapExecute_calls _ _ _ _ _ _ _ _ _ Hc), Hv, Hr. simpl option_map.
  now rewrite (extractTextContent_content r res items He Hres Hcn).
Qed.

Lemma wrapExecute_returns_text_witness :
  calls Json.parse Json.stringify (webSearch Json.parse Json.stringify)
    "web_search_exa" (fun params => params)
  /\ snd (callExa Json.parse Json.stringify "tools/call"
            (toolParams "web_search_exa" query_only) fetch_ok initial)
     = Return ok_document
  /\ asExaResponse ok_document = Some ok_response
  /\ error ok_response = None
  /\ result ok_response = Some ok_result
  /\ content ok_result = Some ok_items
  /\ snd (wrapExecute (webSearch Json.parse Json.stringify)
            "call-1" query_only fetch_ok initial)
     = Some (text_result "ok" false).
Proof.
  assert (Hc : calls Json.parse Json.stringify
                 (webSearch Json.parse Json.stringify)
                 "web_search_exa" (fun params => params))
    by (intros params fetchFn s; reflexivity).
  split; [exact Hc |].
  split; [vm_compute; reflexivity |].
  split; [vm_compute; reflexivity |].
  split; [reflexivity | split; [reflexivity | split; [reflexivity |]]].
  apply (wrapExecute_returns_text Json.parse Json.stringify
           _ _ _ "call-1" query_only fetch_ok initial ok_document ok_response
           ok_result ok_items Hc);
    vm_compute; reflexivity.
Defined.

(** X18. Whatever the tool function does, what the wrapped function
    resolves to has exactly one item, of type [text]; [isError] is
    either not set or [true], and when it is [true] the text begins
    with [Error: ].  The wrapped function changes the state as the tool
    function does. *)
Theorem wrapExecute_result_shape :
  forall (fn : ToolFunction) (_id : string) (params : list (string * json))
         (fetchFn : Fetch) (s : State) (r : ToolResult),
    snd (wrapExecute fn _id params fetchFn s) = Some r ->
    fst (wrapExecute fn _id params fetchFn s) = fst (fn params fetchFn s)
    /\ exists t,
        result_content r = [ {| type := "text"; text := t |} ]
        /\ (isError r = None
            \/ (isError r = Some true /\ startsWith t "Error: " = true)).
Proof.
  intros fn _id params fetchFn s r H.
  split; [apply wrapExecute_state |].
  rewrite wrapExecute_outcome in H.
  destruct (snd (fn params fetchFn s)) as [[t | e]|]; simpl in H;
    inversion H; subst.
  - exists t. split; [reflexivity | now left].
  - exists ("Error: " +++ exn_message e). split; [reflexivity | right].
    split; [reflexivity | apply startsWith_append].
Qed.

Lemma wrapExecute_result_shape_witness :
  snd (wrapExecute (peopleSearch Json.parse Json.stringify)
         "call-1" query_only fetch_bad_request initial)
  = Some (text_result "Error: HTTP error: 400 Bad Request" true)
  /\ fst (wrapExecute (peopleSearch Json.parse Json.stringify)
            "call-1" query_only fetch_bad_request initial)
     = fst (peopleSearch Json.parse Json.stringify query_only
              fetch_bad_request initial)
  /\ exists t,
      result_content (text_result "Error: HTTP error: 400 Bad Request" true)
      = [ {| type := "text"; text := t |} ]
      /\ (isError (text_result "Error: HTTP error: 400 Bad Request" true) = None
          \/ (isError (text_result "Error: HTTP error: 400 Bad Request" true)
              = Some true
              /\ startsWith t "Error: " = true)).
Proof.
  assert (H : snd (wrapExecute (peopleSearch Json.parse Json.stringify)
                     "call-1" query_only fetch_bad_request initial)
              = Some (text_result "Error: HTTP error: 400 Bad Request" true))
    by (vm_compute; reflexivity).
  split; [exact H |].
  exact (wrapExecute_result_shape _ _ _ _ _ _ H).
Defined.

(** X19. Every tool of [TOOLS] runs one of the six tool functions,
    wrapped, which calls a remote tool the URL lists.  Its schema
    requires at least one parameter and requires declared parameters
    only; and every parameter the schema declares reaches the remote
    tool with the value it was given (other than [null]). *)
Theorem registered_tools_forward_declared_parameters :
  forall (JSON_parse : string -> completion json)
         (JSON_stringify : json -> string) (tool : ToolDefinition),
    In tool (TOOLS JSON_parse JSON_stringify) ->
    exists fn name arguments,
      In fn (tool_functions JSON_parse JSON_stringify)
      /\ (forall _id params fetchFn s,
             execute tool _id params fetchFn s
             = wrapExecute fn _id params fetchFn s)
      /\ calls JSON_parse JSON_stringify fn name arguments
      /\ In name allowed_tools
      /\ required_names (parameters tool) <> []
      /\ incl (required_names (parameters tool)) (declared (parameters tool))
      /\ (forall key params v,
             In key (declared (parameters tool)) ->
             property params key = Some v ->
             v <> JNull ->
             property (arguments params) key = Some v).
Proof.
  intros JSON_parse JSON_stringify tool Ht.
  assert (Hincl : forall a (l : list string), In a l -> incl [a] l)
    by (intros a l Ha x [<- | []]; exact Ha).
  assert (Hpub : forall category key params v,
             In key ["query"; "numResults"; "startPublishedDate";
                     "endPublishedDate"] ->
             property params key = Some v -> v <> JNull ->
             property (publishedArgs category params) key = Some v).
  { intros category key params v Hk Hp Hv. rewrite publishedArgs_property.
    destruct Hk as [<- | [<- | [<- | [<- | []]]]]; simpl; rewrite Hp;
      try reflexivity.
    destruct v; try reflexivity. contradiction. }
  destruct Ht as [<- | [<- | [<- | [<- | [<- | [<- | []]]]]]].
  - exists (webSearch JSON_parse JSON_stringify), "web_search_exa",
           (fun params => params).
    split; [simpl; tauto |].
    split; [intros _id params fetchFn s; reflexivity |].
    split; [intros params fetchFn s; reflexivity |].
    split; [vm_compute; tauto |].
    split; [discriminate |].
    split; [apply Hincl; simpl; tauto |].
    intros key params v _ Hp _. exact Hp.
  - exists (codeSearch JSON_parse JSON_stringify), "get_code_context_exa",
           (fun params => params).
    split; [simpl; tauto |].
    split; [intros _id params fetchFn s; reflexivity |].
    split; [intros params fetchFn s; reflexivity |].
    split; [vm_compute; tauto |].
    split; [discriminate |].
    split; [apply Hincl; simpl; tauto |].
    intros key params v _ Hp _. exact Hp.
  - exists (companyResearch JSON_parse JSON_stringify), "company_research_exa",
           (fun params => params).
    split; [simpl; tauto |].
    split; [intros _id params fetchFn s; reflexivity |].
    split; [intros params fetchFn s; reflexivity |].
    split; [vm_compute; tauto |].
    split; [discriminate |].
    split; [apply Hincl; simpl; tauto |].
    intros key params v _ Hp _. exact Hp.
  - exists (twitterSearch JSON_parse JSON_stringify), "web_search_advanced_exa",
           (publishedArgs "tweet").
    split; [simpl; tauto |].
    split; [intros _id params fetchFn s; reflexivity |].
    split; [intros params fetchFn s; reflexivity |].
    split; [vm_compute; tauto |].
    split; [discriminate |].
    split; [apply Hincl; simpl; tauto |].
    intros key params v Hk Hp Hv. now apply Hpub.
  - exists (peopleSearch JSON_parse JSON_stringify), "people_search_exa",
           (fun params => params).
    split; [simpl; tauto |].
    split; [intros _id params fetchFn s; reflexivity |].
    split; [intros params fetchFn s; reflexivity |].
    split; [vm_compute; tauto |].
    split; [discriminate |].
    split; [apply Hincl; simpl; tauto |].
    intros key params v _ Hp _. exact Hp.
  - exists (financialSearch JSON_parse JSON_stringify),
           "web_search_advanced_exa", (publishedArgs "financial report").
    split; [simpl; tauto |].
    split; [intros _id params fetchFn s; reflexivity |].
    split; [intros params fetchFn s; reflexivity |].
    split; [vm_compute; tauto |].
    split; [discriminate |].
    split; [apply Hincl; simpl; tauto |].
    intros key params v Hk Hp Hv. now apply Hpub.
Qed.

Lemma registered_tools_forward_declared_parameters_witness :
  In twitter_tool (TOOLS Json.parse Json.stringify)
  /\ exists fn name arguments,
      In fn (tool_functions Json.parse Json.stringify)
      /\ (forall _id params fetchFn s,
             execute twitter_tool _id params fetchFn s
             = wrapExecute fn _id params fetchFn s)
      /\ calls Json.parse Json.stringify fn name arguments
      /\ In name allowed_tools.
Proof.
  assert (H : In twitter_tool (TOOLS Json.parse Json.stringify))
    by (right; right; right; left; reflexivity).
  split; [exact H |].
  destruct (registered_tools_forward_declared_parameters
              Json.parse Json.stringify _ H)
    as (fn & name & arguments & Hfn & He & Hc & Hn & _).
  exists fn, name, arguments.
  split; [exact Hfn | split; [exact He | split; [exact Hc | exact Hn]]].
Defined.

(** X20. The plugin registers the six tools, each once, in the order of
    [TOOLS]; their names are pairwise distinct and begin with [exa_]. *)
Theorem pluginInit_registers_six_tools :
  forall (JSON_parse : string -> completion json)
         (JSON_stringify : json -> string),
    pluginInit JSON_parse JSON_stringify record_name []
    = [ "exa_web_search"; "exa_code_search"; "exa_company_research";
        "exa_twitter_search"; "exa_people_search";
        "exa_financial_report_search" ]
    /\ NoDup (pluginInit JSON_parse JSON_stringify record_name [])
    /\ Forall (fun name => startsWith name "exa_" = true)
         (pluginInit JSON_parse JSON_stringify record_name [])
    /\ forall (Host : Type) (registerTool : ToolDefinition -> Host -> Host)
              (host : Host),
        pluginInit JSON_parse JSON_stringify registerTool host
        = fold_left (fun h tool => registerTool tool h)
            (TOOLS JSON_parse JSON_stringify) host.
Proof.
  intros JSON_parse JSON_stringify.
  assert (E : pluginInit JSON_parse JSON_stringify record_name []
              = [ "exa_web_search"; "exa_code_search"; "exa_company_research";
                  "exa_twitter_search"; "exa_people_search";
                  "exa_financial_report_search" ]) by reflexivity.
  rewrite E. split; [reflexivity | split; [| split]].
  - repeat constructor; simpl; intuition discriminate.
  - repeat constructor.
  - reflexivity.
Qed.

(* ===================================================================== *)
(** * The tool functions on sample calls *)
(* ===================================================================== *)

Module ToolTests.

(** A Twitter search keeps a count of 0, sets its own category and
    drops the category and the keys it does not know. *)
Example twitter_arguments :
  publishedArgs "tweet" tweet_params
  = [ ("query", JString "AI agents");
      ("category", JString "tweet");
      ("numResults", JNumber 0 0);
      ("endPublishedDate", JString "2024-12-31T00:00:00.000Z") ].
Proof. reflexivity. Qed.

Example financial_arguments_default :
  publishedArgs "financial report" query_only
  = [ ("query", JString "OpenAI");
      ("category", JString "financial report");
      ("numResults", JNumber 10 0) ].
Proof. reflexivity. Qed.

Example twitter_request_body :
  body (requestInit Json.stringify
          (toolRequest "web_search_advanced_exa"
             (publishedArgs "tweet" query_only) initial))
  = dq "{'jsonrpc':'2.0','id':1,'method':'tools/call','params':{'name':'web_search_advanced_exa','arguments':{'query':'OpenAI','category':'tweet','numResults':10}}}".
Proof. vm_compute; reflexivity. Qed.

(** The registered tool, from the parameters to the text. *)
Example twitter_tool_returns_text :
  execute twitter_tool "call-1" tweet_params fetch_ok initial
  = ({| requestIdCounter := 1 |}, Some (text_result "ok" false)).
Proof. vm_compute; reflexivity. Qed.

Example twitter_tool_reports_missing_data :
  snd (execute twitter_tool "call-1" tweet_params fetch_no_data initial)
  = Some (text_result "Error: No data: field found in SSE response" true).
Proof. vm_compute; reflexivity. Qed.

End ToolTests.
